(** * PolicySonar: session token handling, auth loader and client auth context

    A shallow embedding of
      - [lib/env.ts]            (environment lookup),
      - [lib/jwt.ts]            (token codec and header extractor),
      - the Remix auth loader   (request -> response),
      - [contexts/auth.tsx]     (client side auth state),
    together with the properties the specification states about them.

    JavaScript values are modelled as follows.  A string is a Rocq [string]
    whose characters are the code units 0..255 (the values an HTTP header
    can carry); [undefined]/[null] is [None]; a thrown value is an [exn];
    a function that may throw returns a [result]. *)

From Stdlib Require Import String Ascii List ZArith Bool Lia.
Import ListNotations.
Local Open Scope string_scope.

(** ** Thrown values and results *)

(** A thrown JavaScript value: an [Error] instance with its [message], or
    any other value (JavaScript lets every value be thrown). *)
Inductive exn : Type :=
| JsError (message : string)
| JsValue (repr : string).

Inductive result (A : Type) : Type :=
| Ok (a : A)
| Throw (e : exn).
Arguments Ok {A} a.
Arguments Throw {A} e.

Definition bind {A B : Type} (r : result A) (k : A -> result B) : result B :=
  match r with
  | Ok a => k a
  | Throw e => Throw e
  end.

Notation "x <- r ;; k" := (bind r (fun x => k))
  (at level 61, r at next level, right associativity).

(** [try { body } catch (e) { handler e }] *)
Definition try_catch {A : Type} (body : result A) (handler : exn -> result A)
  : result A :=
  match body with
  | Ok a => Ok a
  | Throw e => handler e
  end.

(** [if (!ok) throw new Error(msg)] *)
Definition guard (ok : bool) (msg : string) : result unit :=
  if ok then Ok tt else Throw (JsError msg).

(** ** JavaScript string primitives used by the sources *)

Module JsString.

(** [s.length === 0], i.e. [!s] for a string. *)
Definition is_empty (s : string) : bool :=
  match s with
  | EmptyString => true
  | String _ _ => false
  end.

(** [s.startsWith(p)] *)
Definition startsWith (p s : string) : bool := String.prefix p s.

(** [s.substring(n)]: the characters from index [n] on; empty when [n]
    is past the end. *)
Fixpoint substring_from (n : nat) (s : string) : string :=
  match n, s with
  | O, _ => s
  | S _, EmptyString => EmptyString
  | S n', String _ r => substring_from n' r
  end.

(** WhiteSpace and LineTerminator code points below 256 (ECMA-262):
    TAB, LF, VT, FF, CR, SP and NBSP. *)
Definition is_whitespace (c : ascii) : bool :=
  match nat_of_ascii c with
  | 9 | 10 | 11 | 12 | 13 | 32 | 160 => true
  | _ => false
  end.

(** LineTerminator code points below 256: LF and CR.  The regular
    expression atom [.] matches every character but these. *)
Definition is_line_terminator (c : ascii) : bool :=
  match nat_of_ascii c with
  | 10 | 13 => true
  | _ => false
  end.

Fixpoint trimStart (s : string) : string :=
  match s with
  | EmptyString => EmptyString
  | String c r => if is_whitespace c then trimStart r else s
  end.

Fixpoint trimEnd (s : string) : string :=
  match s with
  | EmptyString => EmptyString
  | String c r =>
      let r' := trimEnd r in
      if is_whitespace c && is_empty r' then EmptyString else String c r'
  end.

(** [s.trim()] *)
Definition trim (s : string) : string := trimEnd (trimStart s).

Fixpoint all_chars (p : ascii -> bool) (s : string) : bool :=
  match s with
  | EmptyString => true
  | String c r => p c && all_chars p r
  end.

(** First and last character of a string, when it has one. *)
Definition first_char (s : string) : option ascii :=
  match s with
  | EmptyString => None
  | String c _ => Some c
  end.

Fixpoint last_char (s : string) : option ascii :=
  match s with
  | EmptyString => None
  | String c EmptyString => Some c
  | String _ r => last_char r
  end.

End JsString.

(** ** Header extractor ([lib/jwt.ts], [extractTokenFromHeader]) *)

Definition extractTokenFromHeader (authHeader : option string) : option string :=
  match authHeader with
  | None => None
  | Some h =>
      if negb (JsString.startsWith "Bearer " h) then None
      else
        let token := JsString.trim (JsString.substring_from 7 h) in
        if JsString.is_empty token then None else Some token
  end.

(** The specification's pattern [^Bearer .+$], read as a JavaScript regular
    expression without flags, on strings of code units 0..255 (what
    [request.headers.get] returns): the literal prefix, then one or more
    characters none of which is a line terminator, up to the end.  Among
    these code units the line terminators are LF and CR. *)
Definition matches_bearer_regex (h : string) : bool :=
  JsString.startsWith "Bearer " h
  && negb (JsString.is_empty (JsString.substring_from 7 h))
  && JsString.all_chars (fun c => negb (JsString.is_line_terminator c))
       (JsString.substring_from 7 h).

(** ** Environment lookup ([lib/env.ts]) *)

Module Env.

Record EnvVariables : Type := { JWT_SECRET : string }.

(** [import.meta.env.VITE_JWT_SECRET || ''] *)
Definition or_empty (v : option string) : string :=
  match v with
  | Some s => s
  | None => EmptyString
  end.

(** Evaluation of the module: the exported [env] together with the lines
    written by [console.error], in order.  [vite_jwt_secret] is the value
    of [import.meta.env.VITE_JWT_SECRET] ([None] when the variable is not
    set). *)
Definition load (vite_jwt_secret : option string) : EnvVariables * list string :=
  let env := {| JWT_SECRET := or_empty vite_jwt_secret |} in
  (env,
   if JsString.is_empty (JWT_SECRET env)
   then ["Missing required environment variable: JWT_SECRET"]
   else []).

End Env.

(** ** The [jsonwebtoken] package

    [lib/jwt.ts] imports [sign] and [verify] from the npm package
    [jsonwebtoken].  The package is not part of the repository; the model
    below follows the behaviour of its [sign.js] and [verify.js]
    (versions 8 and 9) as far as the calls made by [lib/jwt.ts] exercise
    them.  The base64url/JSON encoding and the MAC itself are kept abstract
    in the class [JwsCodec]. *)

Module Jsonwebtoken.

(** The double quote character, for the package's error messages. *)
Definition dq : string := String (ascii_of_nat 34) EmptyString.
Definition quoted (s : string) : string := dq ++ s ++ dq.

(** Values that occur in option objects. *)
Inductive value : Type :=
| VStr (s : string)
| VNum (n : Z)
| VBool (b : bool)
| VArr (l : list string).

(** A plain JavaScript object: its own keys in insertion order. *)
Definition object : Type := list (string * value).

Fixpoint get (k : string) (o : object) : option value :=
  match o with
  | [] => None
  | (k', v) :: o' => if String.eqb k k' then Some v else get k o'
  end.

(** [o[k] = v]: overwrite in place, or append a new key. *)
Fixpoint set (k : string) (v : value) (o : object) : object :=
  match o with
  | [] => [(k, v)]
  | (k', v') :: o' =>
      if String.eqb k k' then (k', v) :: o' else (k', v') :: set k v o'
  end.

(** [delete o[k]] *)
Fixpoint delete (k : string) (o : object) : object :=
  match o with
  | [] => []
  | (k', v) :: o' =>
      if String.eqb k k' then delete k o' else (k', v) :: delete k o'
  end.

(** [{...a, ...b}] *)
Definition spread (a b : object) : object :=
  fold_left (fun acc kv => set (fst kv) (snd kv) acc) b a.

(** The [aud] claim: one string or an array of strings. *)
Inductive audience : Type :=
| AudOne (s : string)
| AudMany (l : list string).

(** A decoded token payload.  [userId], [role] and [sessionId] are the
    application's claims, the others the registered claims the package
    reads or writes. *)
Record claims : Type := {
  userId : option string;
  role : option string;
  sessionId : option string;
  iat : option Z;
  exp : option Z;
  nbf : option Z;
  iss : option string;
  aud : option audience;
  sub : option string;
  jti : option string
}.

(** A token in JWS compact serialization, taken apart: the [alg] of its
    header, its payload, the text that was signed (the first two
    segments) and the signature segment. *)
Record jws : Type := {
  alg : string;
  payload : claims;
  signing_input : string;
  signature : string
}.

Class JwsCodec : Type := {
  (** base64url(header) ++ "." ++ base64url(payload) *)
  encode_segments : string -> claims -> string;
  (** split and decode a compact serialization; [None] when malformed *)
  decode_compact : string -> option jws;
  (** [jwa(alg).sign(message, key)], e.g. HMAC-SHA256 for [HS256] *)
  jwa_sign : string -> string -> string -> string
}.

(** What a codec owes: a token assembled from encoded segments and a
    non-empty signature decodes to its parts. *)
Definition codec_roundtrip (C : JwsCodec) : Prop :=
  forall a p s,
    JsString.is_empty s = false ->
    decode_compact (encode_segments a p ++ "." ++ s)
    = Some {| alg := a; payload := p;
              signing_input := encode_segments a p; signature := s |}.

(** *** [ms] and [lib/timespan.js] *)

Definition is_digit (c : ascii) : bool :=
  let n := nat_of_ascii c in Nat.leb 48 n && Nat.leb n 57.

(** Leading decimal digits of [s], as a number with the accumulator
    [acc], and the rest of [s]; [seen] tells whether a digit was read. *)
Fixpoint read_digits (s : string) (acc : Z) (seen : bool) : option Z * string :=
  match s with
  | String c r =>
      if is_digit c
      then read_digits r (10 * acc + Z.of_nat (nat_of_ascii c - 48)) true
      else (if seen then Some acc else None, s)
  | EmptyString => (if seen then Some acc else None, s)
  end.

(** Milliseconds per unit, for the short unit names of [ms]. *)
Definition unit_ms (u : string) : option Z :=
  if String.eqb u "" then Some 1%Z
  else if String.eqb u "ms" then Some 1%Z
  else if String.eqb u "s" then Some 1000%Z
  else if String.eqb u "m" then Some 60000%Z
  else if String.eqb u "h" then Some 3600000%Z
  else if String.eqb u "d" then Some 86400000%Z
  else if String.eqb u "w" then Some 604800000%Z
  else if String.eqb u "y" then Some 31557600000%Z
  else None.

(** [ms(str)] for a whole number directly followed by a short unit
    (["15m"], ["7d"], ["30s"]); other spellings are outside the model and
    read as not parseable. *)
Definition ms (s : string) : option Z :=
  match read_digits s 0%Z false with
  | (Some n, u) =>
      match unit_ms u with
      | Some k => Some (n * k)%Z
      | None => None
      end
  | (None, _) => None
  end.

(** [timespan(time, iat)]: the instant [time] after [iat], in seconds. *)
Definition timespan (time : value) (timestamp : Z) : option Z :=
  match time with
  | VStr s =>
      match ms s with
      | Some millis => Some (timestamp + millis / 1000)%Z
      | None => None
      end
  | VNum n => Some (timestamp + n)%Z
  | _ => None
  end.

(** *** [sign.js]: option validation *)

Definition SUPPORTED_ALGS : list string :=
  ["RS256"; "RS384"; "RS512"; "ES256"; "ES384"; "ES512";
   "HS256"; "HS384"; "HS512"; "none"].

Definition mem (s : string) (l : list string) : bool :=
  existsb (String.eqb s) l.

Definition is_timespan_value (v : value) : bool :=
  match v with
  | VNum _ => true
  | VStr s => negb (JsString.is_empty s)
  | _ => false
  end.

Definition is_string_value (v : value) : bool :=
  match v with VStr _ => true | _ => false end.

Definition is_boolean_value (v : value) : bool :=
  match v with VBool _ => true | _ => false end.

Definition is_string_or_array (v : value) : bool :=
  match v with VStr _ | VArr _ => true | _ => false end.

Definition is_algorithm (v : value) : bool :=
  match v with VStr s => mem s SUPPORTED_ALGS | _ => false end.

(** [sign_options_schema]: for each option the package knows, its
    validator and the message thrown when it rejects. *)
Definition sign_options_schema : list (string * ((value -> bool) * string)) :=
  [ ("expiresIn", (is_timespan_value,
      quoted "expiresIn" ++ " should be a number of seconds or string representing a timespan"));
    ("notBefore", (is_timespan_value,
      quoted "notBefore" ++ " should be a number of seconds or string representing a timespan"));
    ("audience", (is_string_or_array, quoted "audience" ++ " must be a string or array"));
    ("algorithm", (is_algorithm, quoted "algorithm" ++ " must be a valid string enum value"));
    ("header", ((fun _ => false), quoted "header" ++ " must be an object"));
    ("encoding", (is_string_value, quoted "encoding" ++ " must be a string"));
    ("issuer", (is_string_value, quoted "issuer" ++ " must be a string"));
    ("subject", (is_string_value, quoted "subject" ++ " must be a string"));
    ("jwtid", (is_string_value, quoted "jwtid" ++ " must be a string"));
    ("noTimestamp", (is_boolean_value, quoted "noTimestamp" ++ " must be a boolean"));
    ("keyid", (is_string_value, quoted "keyid" ++ " must be a string"));
    ("mutatePayload", (is_boolean_value, quoted "mutatePayload" ++ " must be a boolean"));
    ("allowInsecureKeySizes",
      (is_boolean_value, quoted "allowInsecureKeySizes" ++ " must be a boolean"));
    ("allowInvalidAsymmetricKeyTypes",
      (is_boolean_value, quoted "allowInvalidAsymmetricKeyTypes" ++ " must be a boolean")) ].

Fixpoint schema_lookup {A : Type} (k : string) (s : list (string * A)) : option A :=
  match s with
  | [] => None
  | (k', a) :: s' => if String.eqb k k' then Some a else schema_lookup k s'
  end.

(** [validate(sign_options_schema, false, options, 'options')]: the keys
    of [options] are visited in order; a key the schema does not list is
    rejected, and so is a value its validator refuses. *)
Fixpoint validateOptions (options : object) : result unit :=
  match options with
  | [] => Ok tt
  | (key, v) :: rest =>
      match schema_lookup key sign_options_schema with
      | None =>
          Throw (JsError (quoted key ++ " is not allowed in " ++ quoted "options"))
      | Some (isValid, message) =>
          if isValid v then validateOptions rest else Throw (JsError message)
      end
  end.

(** *** Claim updates *)

Definition defined {A : Type} (o : option A) : bool :=
  match o with Some _ => true | None => false end.

Definition with_iat (v : option Z) (c : claims) : claims :=
  {| userId := userId c; role := role c; sessionId := sessionId c;
     iat := v; exp := exp c; nbf := nbf c; iss := iss c; aud := aud c;
     sub := sub c; jti := jti c |}.

Definition with_exp (v : option Z) (c : claims) : claims :=
  {| userId := userId c; role := role c; sessionId := sessionId c;
     iat := iat c; exp := v; nbf := nbf c; iss := iss c; aud := aud c;
     sub := sub c; jti := jti c |}.

Definition with_nbf (v : option Z) (c : claims) : claims :=
  {| userId := userId c; role := role c; sessionId := sessionId c;
     iat := iat c; exp := exp c; nbf := v; iss := iss c; aud := aud c;
     sub := sub c; jti := jti c |}.

Definition with_iss (v : option string) (c : claims) : claims :=
  {| userId := userId c; role := role c; sessionId := sessionId c;
     iat := iat c; exp := exp c; nbf := nbf c; iss := v; aud := aud c;
     sub := sub c; jti := jti c |}.

Definition with_aud (v : option audience) (c : claims) : claims :=
  {| userId := userId c; role := role c; sessionId := sessionId c;
     iat := iat c; exp := exp c; nbf := nbf c; iss := iss c; aud := v;
     sub := sub c; jti := jti c |}.

Definition with_sub (v : option string) (c : claims) : claims :=
  {| userId := userId c; role := role c; sessionId := sessionId c;
     iat := iat c; exp := exp c; nbf := nbf c; iss := iss c; aud := aud c;
     sub := v; jti := jti c |}.

Definition with_jti (v : option string) (c : claims) : claims :=
  {| userId := userId c; role := role c; sessionId := sessionId c;
     iat := iat c; exp := exp c; nbf := nbf c; iss := iss c; aud := aud c;
     sub := sub c; jti := v |}.

Definition already_has (key claim : string) : string :=
  "Bad " ++ quoted ("options." ++ key) ++ " option. The payload already has an "
  ++ quoted claim ++ " property.".

(** One entry of [options_to_payload]: copy [options[key]] into the claim,
    unless the payload carries that claim already. *)
Definition option_to_claim {A : Type} (key claim : string) (options : object)
    (current : claims -> option A) (conv : value -> option A)
    (update : option A -> claims -> claims) (c : claims) : result claims :=
  match get key options with
  | None => Ok c
  | Some v =>
      if defined (current c) then Throw (JsError (already_has key claim))
      else Ok (update (conv v) c)
  end.

Definition value_string (v : value) : option string :=
  match v with VStr s => Some s | _ => None end.

Definition value_audience (v : value) : option audience :=
  match v with
  | VStr s => Some (AudOne s)
  | VArr l => Some (AudMany l)
  | _ => None
  end.

Definition timespan_message (key : string) : string :=
  quoted key ++ " should be a number of seconds or string representing a timespan eg: "
  ++ quoted "1d" ++ ", " ++ quoted "20h" ++ ", 60".

(** One of [notBefore] / [expiresIn]: the claim becomes the instant the
    option names, counted from [timestamp]. *)
Definition timespan_to_claim (key : string) (options : object) (timestamp : Z)
    (update : option Z -> claims -> claims) (c : claims) : result claims :=
  match get key options with
  | None => Ok c
  | Some v =>
      match timespan v timestamp with
      | Some t => Ok (update (Some t) c)
      | None => Throw (JsError (timespan_message key))
      end
  end.

Record VerifyOptions : Type := {
  algorithms : list string;
  issuer : option string;
  audience_opt : option (list string)
}.

Fixpoint join (sep : string) (l : list string) : string :=
  match l with
  | [] => EmptyString
  | [x] => x
  | x :: r => x ++ sep ++ join sep r
  end.

(** The values of the token's [aud] claim, as [verify] compares them. *)
Definition audience_targets (a : option audience) : list string :=
  match a with
  | Some (AudOne s) => [s]
  | Some (AudMany l) => l
  | None => []
  end.

Section Package.
Context {C : JwsCodec}.

(** [sign(payload, secretOrPrivateKey, options)], called without a
    callback; [now] is [Math.floor(Date.now() / 1000)]. *)
Definition sign (now : Z) (payload0 : claims) (secretOrPrivateKey : string)
    (options : object) : result string :=
  let algorithm :=
    match get "algorithm" options with
    | Some (VStr a) => a
    | _ => "HS256"
    end in
  _ <- guard (negb (JsString.is_empty secretOrPrivateKey)
              || String.eqb algorithm "none")
         "secretOrPrivateKey must have a value" ;;
  _ <- guard (negb (defined (exp payload0) && defined (get "expiresIn" options)))
         ("Bad " ++ quoted "options.expiresIn"
          ++ " option the payload already has an " ++ quoted "exp" ++ " property.") ;;
  _ <- guard (negb (defined (nbf payload0) && defined (get "notBefore" options)))
         ("Bad " ++ quoted "options.notBefore"
          ++ " option the payload already has an " ++ quoted "nbf" ++ " property.") ;;
  _ <- validateOptions options ;;
  let timestamp :=
    match iat payload0 with
    | Some t => if Z.eqb t 0 then now else t
    | None => now
    end in
  let p1 :=
    match get "noTimestamp" options with
    | Some (VBool true) => with_iat None payload0
    | _ => with_iat (Some timestamp) payload0
    end in
  p2 <- timespan_to_claim "notBefore" options timestamp with_nbf p1 ;;
  p3 <- timespan_to_claim "expiresIn" options timestamp with_exp p2 ;;
  p4 <- option_to_claim "audience" "aud" options aud value_audience with_aud p3 ;;
  p5 <- option_to_claim "issuer" "iss" options iss value_string with_iss p4 ;;
  p6 <- option_to_claim "subject" "sub" options sub value_string with_sub p5 ;;
  p7 <- option_to_claim "jwtid" "jti" options jti value_string with_jti p6 ;;
  let input := encode_segments algorithm p7 in
  Ok (input ++ "." ++ jwa_sign algorithm secretOrPrivateKey input).

(** [verify(jwtString, secretOrPublicKey, options)], called without a
    callback; [now] is [Math.floor(Date.now() / 1000)]. *)
Definition verify (now : Z) (jwtString : string) (secretOrPublicKey : string)
    (options : VerifyOptions) : result claims :=
  match decode_compact jwtString with
  | None => Throw (JsError "jwt malformed")
  | Some t =>
      let hasSignature := negb (JsString.is_empty (JsString.trim (signature t))) in
      let hasKey := negb (JsString.is_empty secretOrPublicKey) in
      _ <- guard (negb (negb hasSignature && hasKey)) "jwt signature is required" ;;
      _ <- guard (negb (hasSignature && negb hasKey))
             "secret or public key must be provided" ;;
      _ <- guard (mem (alg t) (algorithms options)) "invalid algorithm" ;;
      _ <- guard (String.eqb (signature t)
                    (jwa_sign (alg t) secretOrPublicKey (signing_input t)))
             "invalid signature" ;;
      let p := payload t in
      _ <- guard (match nbf p with Some n => Z.leb n now | None => true end)
             "jwt not active" ;;
      _ <- guard (match exp p with Some e => Z.ltb now e | None => true end)
             "jwt expired" ;;
      _ <- match audience_opt options with
           | Some audiences =>
               guard (existsb (fun target => mem target audiences)
                        (audience_targets (aud p)))
                 ("jwt audience invalid. expected: " ++ join " or " audiences)
           | None => Ok tt
           end ;;
      _ <- match issuer options with
           | Some i =>
               guard (match iss p with Some i' => String.eqb i' i | None => false end)
                 ("jwt issuer invalid. expected: " ++ i)
           | None => Ok tt
           end ;;
      Ok p
  end.

(** [decode(jwt)], called without options: the payload of a token that can
    be taken apart, [null] otherwise.  Nothing is checked. *)
Definition decode (jwt : string) : option claims :=
  match decode_compact jwt with
  | Some t => Some (payload t)
  | None => None
  end.

End Package.

End Jsonwebtoken.

(** ** Token codec ([lib/jwt.ts]) *)

Module Jwt.

Import Jsonwebtoken.

(** [Omit<JWTPayload, 'iat' | 'exp'>], what [createToken] accepts: the
    three claims of the application and, [JWTPayload] extending the
    package's [JwtPayload], the registered claims other than [iat] and
    [exp].  Further custom claims, which [sign] and [verify] carry through
    untouched, are left out. *)
Record JWTPayload : Type := {
  p_userId : string;
  p_role : option string;
  p_sessionId : option string;
  p_nbf : option Z;
  p_iss : option string;
  p_aud : option audience;
  p_sub : option string;
  p_jti : option string
}.

Definition to_claims (p : JWTPayload) : claims :=
  {| userId := Some (p_userId p); role := p_role p; sessionId := p_sessionId p;
     iat := None; exp := None; nbf := p_nbf p; iss := p_iss p; aud := p_aud p;
     sub := p_sub p; jti := p_jti p |}.

Inductive TokenType : Type := access | refresh.

Definition TOKEN_CONFIG (t : TokenType) : object :=
  match t with
  | access => [("expiresIn", VStr "15m"); ("type", VStr "access")]
  | refresh => [("expiresIn", VStr "7d"); ("type", VStr "refresh")]
  end.

(** The statement at the top of the module:
    [if (!env.JWT_SECRET) throw new Error(...)]. *)
Definition module_init (env : Env.EnvVariables) : result unit :=
  guard (negb (JsString.is_empty (Env.JWT_SECRET env)))
    "JWT_SECRET environment variable is not set".

Definition ISSUER : string := "policy-sonar".
Definition AUDIENCE : list string := ["web"; "mobile"].

(** The [options] object [createToken] builds. *)
Definition sign_options (tokenType : TokenType) : object :=
  spread (TOKEN_CONFIG tokenType)
    [("algorithm", VStr "HS256");
     ("issuer", VStr ISSUER);
     ("audience", VArr AUDIENCE)].

Definition verify_options : VerifyOptions :=
  {| algorithms := ["HS256"]; issuer := Some ISSUER; audience_opt := Some AUDIENCE |}.

(** The one error [verifyToken] throws (the kind [InvalidToken]). *)
Definition invalid_token : exn := JsError "Invalid or expired token".

(** [!decoded.userId] is false: the claim is there and is not empty. *)
Definition truthy (s : option string) : bool :=
  match s with
  | Some v => negb (JsString.is_empty v)
  | None => false
  end.

(** Seconds a token of each kind lives: ['15m'] and ['7d']. *)
Definition lifetime (t : TokenType) : Z :=
  match t with
  | access => 900%Z
  | refresh => 604800%Z
  end.

(** The claims of a token issued at [now] for a [payload] that names no
    issuer and no audience of its own: the payload with [iat], [exp],
    [iss] and [aud] added. *)
Definition issued_claims (now : Z) (payload : JWTPayload) (t : TokenType) : claims :=
  {| userId := Some (p_userId payload); role := p_role payload;
     sessionId := p_sessionId payload;
     iat := Some now; exp := Some (now + lifetime t)%Z; nbf := p_nbf payload;
     iss := Some ISSUER; aud := Some (AudMany AUDIENCE);
     sub := p_sub payload; jti := p_jti payload |}.

Section Codec.
Context {C : JwsCodec}.
Variable now : Z.
Variable env : Env.EnvVariables.

Definition createToken (payload : JWTPayload) (tokenType : TokenType)
  : result string :=
  sign now (to_claims payload) (Env.JWT_SECRET env) (sign_options tokenType).

Definition verifyToken (token : string) : result claims :=
  try_catch
    (decoded <- verify now token (Env.JWT_SECRET env) verify_options ;;
     _ <- guard (truthy (userId decoded)) "Invalid token payload" ;;
     Ok decoded)
    (fun _ => Throw (JsError "Invalid or expired token")).

(** The checks a decoded token passes on its way through [verifyToken],
    in the order they are made. *)
Definition token_accepted (t : jws) : bool :=
  let secret := Env.JWT_SECRET env in
  Bool.eqb (negb (JsString.is_empty (JsString.trim (signature t))))
           (negb (JsString.is_empty secret))
  && mem (alg t) ["HS256"]
  && String.eqb (signature t) (jwa_sign (alg t) secret (signing_input t))
  && match nbf (payload t) with Some n => Z.leb n now | None => true end
  && match exp (payload t) with Some e => Z.ltb now e | None => true end
  && existsb (fun target => mem target AUDIENCE) (audience_targets (aud (payload t)))
  && match iss (payload t) with Some i => String.eqb i ISSUER | None => false end
  && truthy (userId (payload t)).

(** The tokens the specification wants refused: signed under another key
    (whose MAC differs from the one under the configured secret), expired,
    issued by someone else, addressed to neither audience, or without a
    user id. *)
Definition refused_token (t : jws) : Prop :=
  let secret := Env.JWT_SECRET env in
  (exists key,
      signature t = jwa_sign (alg t) key (signing_input t)
      /\ jwa_sign (alg t) key (signing_input t)
         <> jwa_sign (alg t) secret (signing_input t))
  \/ (exists e, exp (payload t) = Some e /\ (e <= now)%Z)
  \/ iss (payload t) <> Some ISSUER
  \/ (forall a, In a (audience_targets (aud (payload t))) -> ~ In a AUDIENCE)
  \/ truthy (userId (payload t)) = false.

(** [decodeToken]: [decode] does not throw, so the [catch] is never
    entered. *)
Definition decodeToken (token : string) : option claims :=
  Jsonwebtoken.decode token.

(** [TokenUtils] *)
Definition createAccessToken (payload : JWTPayload) : result string :=
  createToken payload access.

Definition createRefreshToken (payload : JWTPayload) : result string :=
  createToken payload refresh.

Definition verifyAccessToken : string -> result claims := verifyToken.

Definition verifyRefreshToken : string -> result claims := verifyToken.

End Codec.

End Jwt.

(** ** Awaited calls to the backend SDK *)

(** How the promise of an awaited call settles. *)
Inductive settled (A : Type) : Type :=
| Resolved (a : A)
| Rejected (e : exn).
Arguments Resolved {A} a.
Arguments Rejected {A} e.

(** ** Auth loader (Remix route) *)

Module Loader.

Import Jsonwebtoken.

(** A row of [profiles], restricted to the selected columns. *)
Record ProfileRow : Type := {
  id : string;
  username : string;
  full_name : option string;
  avatar_url : option string;
  roles : option (list string)
}.

Record PostgrestError : Type := { pg_message : string; pg_code : string }.

(** The value [.single()] resolves to. *)
Record SingleResult : Type := {
  data : option ProfileRow;
  error : option PostgrestError
}.

(** [.from(table).select(columns).eq(eq_column, eq_value).single()] *)
Record Query : Type := {
  table : string;
  columns : string;
  eq_column : string;
  eq_value : option string
}.

(** The profile store: what each query settles to. *)
Definition Store : Type := Query -> settled SingleResult.

(** What a request handler does to the outside world. *)
Inductive effect : Type :=
| StoreSelect (q : Query)
| StoreInsert (table : string)
| StoreUpdate (table : string)
| StoreDelete (table : string)
| ConsoleError (label : string) (e : exn).

Definition is_store_write (f : effect) : bool :=
  match f with
  | StoreInsert _ | StoreUpdate _ | StoreDelete _ => true
  | StoreSelect _ | ConsoleError _ _ => false
  end.

Definition is_select (f : effect) : bool :=
  match f with StoreSelect _ => true | _ => false end.

Definition is_log (f : effect) : bool :=
  match f with ConsoleError _ _ => true | _ => false end.

Record UserView : Type := {
  user_id : option string;
  user_email : string;
  user_username : string;
  user_name : option string;
  user_avatar : option string;
  user_roles : list string
}.

Inductive Body : Type :=
| ErrorBody (error : string) (details : option string)
| AuthBody (user : UserView) (session : option string).

Record Response : Type := { status : Z; body : Body }.

(** [json(body, { status })]; the status defaults to 200. *)
Definition json (b : Body) (init : option Z) : Response :=
  {| status := match init with Some s => s | None => 200%Z end; body := b |}.

Definition profile_query (uid : option string) : Query :=
  {| table := "profiles";
     columns := "id, username, full_name, avatar_url, roles";
     eq_column := "id";
     eq_value := uid |}.

(** [error instanceof Error ? error.message : 'Unknown error'] *)
Definition error_details (e : exn) : string :=
  match e with
  | JsError m => m
  | JsValue _ => "Unknown error"
  end.

(** The [catch] block. *)
Definition on_throw (e : exn) : Response * list effect :=
  (json (ErrorBody "Authentication failed" (Some (error_details e))) (Some 401%Z),
   [ConsoleError "Auth loader error:" e]).

(** [profile.roles || []] *)
Definition roles_or_empty (r : option (list string)) : list string :=
  match r with
  | Some l => l
  | None => []
  end.

Section Handler.
Context {C : JwsCodec}.
Variable now : Z.
Variable env : Env.EnvVariables.
Variable store : Store.

(** The loader, applied to the value of
    [request.headers.get('Authorization')]: the response and the
    effects performed, in order. *)
Definition loader (authHeader : option string) : Response * list effect :=
  match extractTokenFromHeader authHeader with
  | None =>
      (json (ErrorBody "Authorization token required" None) (Some 401%Z), [])
  | Some token =>
      match Jwt.verifyToken now env token with
      | Throw e => on_throw e
      | Ok payload =>
          let q := profile_query (userId payload) in
          match store q with
          | Rejected e =>
              (fst (on_throw e), StoreSelect q :: snd (on_throw e))
          | Resolved r =>
              match error r, data r with
              | None, Some profile =>
                  (json
                     (AuthBody
                        {| user_id := userId payload;
                           user_email := username profile ++ "@example.com";
                           user_username := username profile;
                           user_name := full_name profile;
                           user_avatar := avatar_url profile;
                           user_roles := roles_or_empty (roles profile) |}
                        (sessionId payload))
                     None,
                   [StoreSelect q])
              | _, _ =>
                  (json (ErrorBody "User profile not found" None) (Some 404%Z),
                   [StoreSelect q])
              end
          end
      end
  end.

(** Some step after the extraction of [token] throws [e]: the
    verification, or the awaited store lookup. *)
Definition flow_throws (token : string) (e : exn) : Prop :=
  Jwt.verifyToken now env token = Throw e
  \/ exists payload,
       Jwt.verifyToken now env token = Ok payload
       /\ store (profile_query (userId payload)) = Rejected e.

(** The five ways through the loader. *)
Inductive loader_path (authHeader : option string) : Prop :=
| NoToken :
    extractTokenFromHeader authHeader = None ->
    loader authHeader
    = ({| status := 401; body := ErrorBody "Authorization token required" None |}, []) ->
    loader_path authHeader
| BadToken (token : string) :
    extractTokenFromHeader authHeader = Some token ->
    Jwt.verifyToken now env token = Throw Jwt.invalid_token ->
    loader authHeader
    = ({| status := 401;
          body := ErrorBody "Authentication failed" (Some "Invalid or expired token") |},
       [ConsoleError "Auth loader error:" Jwt.invalid_token]) ->
    loader_path authHeader
| StoreThrew (token : string) (payload : claims) (e : exn) :
    extractTokenFromHeader authHeader = Some token ->
    Jwt.verifyToken now env token = Ok payload ->
    store (profile_query (userId payload)) = Rejected e ->
    loader authHeader
    = ({| status := 401;
          body := ErrorBody "Authentication failed" (Some (error_details e)) |},
       [StoreSelect (profile_query (userId payload));
        ConsoleError "Auth loader error:" e]) ->
    loader_path authHeader
| NoProfile (token : string) (payload : claims) (r : SingleResult) :
    extractTokenFromHeader authHeader = Some token ->
    Jwt.verifyToken now env token = Ok payload ->
    store (profile_query (userId payload)) = Resolved r ->
    data r = None \/ error r <> None ->
    loader authHeader
    = ({| status := 404; body := ErrorBody "User profile not found" None |},
       [StoreSelect (profile_query (userId payload))]) ->
    loader_path authHeader
| Found (token : string) (payload : claims) (r : SingleResult) (row : ProfileRow) :
    extractTokenFromHeader authHeader = Some token ->
    Jwt.verifyToken now env token = Ok payload ->
    store (profile_query (userId payload)) = Resolved r ->
    data r = Some row -> error r = None ->
    loader authHeader
    = ({| status := 200;
          body := AuthBody
                    {| user_id := userId payload;
                       user_email := username row ++ "@example.com";
                       user_username := username row;
                       user_name := full_name row;
                       user_avatar := avatar_url row;
                       user_roles := roles_or_empty (roles row) |}
                    (sessionId payload) |},
       [StoreSelect (profile_query (userId payload))]) ->
    loader_path authHeader.

End Handler.

End Loader.

(** ** Client auth context ([contexts/auth.tsx]) *)

Module AuthContext.

Record User : Type := { uid : string; email : option string }.

Record Profile : Type := {
  id : string;
  username : string;
  full_name : option string;
  avatar_url : option string;
  roles : option (list string)
}.

Record AuthError : Type := { message : string; status : option Z }.

(** The three [useState] cells of [AuthProvider]. *)
Record State : Type := {
  user : option User;
  profile : option Profile;
  isLoading : bool
}.

Definition initial : State :=
  {| user := None; profile := None; isLoading := true |}.

Definition setUser (u : option User) (st : State) : State :=
  {| user := u; profile := profile st; isLoading := isLoading st |}.

Definition setProfile (p : option Profile) (st : State) : State :=
  {| user := user st; profile := p; isLoading := isLoading st |}.

Definition setIsLoading (b : bool) (st : State) : State :=
  {| user := user st; profile := profile st; isLoading := b |}.

(** What an [async] function of the context throws: the backend's error
    object, or some other thrown value. *)
Inductive thrown : Type :=
| ThrownAuthError (e : AuthError)
| ThrownValue (e : exn).

(** How the promise returned by an [async] function settles. *)
Inductive completion : Type :=
| Returned
| Threw (t : thrown).

(** The value [supabase.auth.signInWithPassword] resolves to. *)
Record SignInResponse : Type := {
  data_user : option User;
  signin_error : option AuthError
}.

(** The value [supabase.auth.signOut] resolves to. *)
Record SignOutResponse : Type := { signout_error : option AuthError }.

(** [signIn].  [backend] is [supabase.auth.signInWithPassword].  The
    name [fetchProfile] is declared inside the [useEffect] callback and
    is not in scope here, so evaluating it throws a ReferenceError. *)
Definition signIn (backend : string -> string -> settled SignInResponse)
    (email password : string) (st : State) : State * completion :=
  let st1 := setIsLoading true st in
  match backend email password with
  | Rejected e => (setIsLoading false st1, Threw (ThrownValue e))
  | Resolved r =>
      match signin_error r with
      | Some err => (setIsLoading false st1, Threw (ThrownAuthError err))
      | None =>
          match data_user r with
          | Some u =>
              let st2 := setUser (Some u) st1 in
              (setIsLoading false st2,
               Threw (ThrownValue (JsError "fetchProfile is not defined")))
          | None => (setIsLoading false st1, Returned)
          end
      end
  end.

(** [signOut].  [backend] is how [supabase.auth.signOut()] settles. *)
Definition signOut (backend : settled SignOutResponse) (st : State)
  : State * completion :=
  let st1 := setIsLoading true st in
  match backend with
  | Resolved _ =>
      let st2 := setProfile None (setUser None st1) in
      (setIsLoading false st2, Returned)
  | Rejected e => (setIsLoading false st1, Threw (ThrownValue e))
  end.

(** [profile?.roles?.includes(role) ?? false] *)
Definition hasRole (st : State) (role : string) : bool :=
  match profile st with
  | None => false
  | Some p =>
      match roles p with
      | None => false
      | Some rs => existsb (String.eqb role) rs
      end
  end.

(** The roles of a loaded profile as a set; a profile without a [roles]
    field has none. *)
Definition role_set (p : Profile) : list string :=
  match roles p with
  | Some rs => rs
  | None => []
  end.

(** *** The effect of [AuthProvider]: initial load and subscription *)

Record QueryError : Type := { query_message : string }.

(** The value the profile query resolves to. *)
Record ProfileResponse : Type := {
  profile_data : option Profile;
  profile_error : option QueryError
}.

(** The profile table as the context sees it:
    [.from('profiles').select('*').eq('id', userId).single()]. *)
Definition ProfileStore : Type := string -> settled ProfileResponse.

Record Session : Type := { session_user : User; access_token : string }.

(** [fetchProfile], local to the effect. *)
Definition fetchProfile (store : ProfileStore) (userId : string) (st : State)
  : State * completion :=
  match store userId with
  | Rejected e => (st, Threw (ThrownValue e))
  | Resolved r =>
      match profile_error r, profile_data r with
      | None, Some p => (setProfile (Some p) st, Returned)
      | _, _ => (st, Returned)
      end
  end.

(** [initializeAuth]; [getUser] is how [supabase.auth.getUser()] settles,
    with the [user] of its [data]. *)
Definition initializeAuth (getUser : settled (option User)) (store : ProfileStore)
    (st : State) : State * completion :=
  let st1 := setIsLoading true st in
  match getUser with
  | Rejected e => (st1, Threw (ThrownValue e))
  | Resolved None => (setIsLoading false st1, Returned)
  | Resolved (Some u) =>
      match fetchProfile store (uid u) (setUser (Some u) st1) with
      | (st2, Returned) => (setIsLoading false st2, Returned)
      | (st2, Threw t) => (st2, Threw t)
      end
  end.

(** The listener given to [supabase.auth.onAuthStateChange]; the event
    name is not looked at. *)
Definition onAuthStateChange (store : ProfileStore) (event : string)
    (session : option Session) (st : State) : State * completion :=
  match session with
  | Some s => fetchProfile store (uid (session_user s)) (setUser (Some (session_user s)) st)
  | None => (setProfile None (setUser None st), Returned)
  end.

(** [refreshSession].  As in [signIn], the name [fetchProfile] is not in
    scope here. *)
Definition refreshSession (getUser : settled (option User)) (st : State)
  : State * completion :=
  match getUser with
  | Rejected e => (st, Threw (ThrownValue e))
  | Resolved u =>
      let st1 := setUser u st in
      match u with
      | Some _ => (st1, Threw (ThrownValue (JsError "fetchProfile is not defined")))
      | None => (st1, Returned)
      end
  end.

End AuthContext.

(** ** Backend client ([lib/auth.ts]) *)

Module AuthLib.

(** The entries of a storage area: a map from keys to values. *)
Definition Storage : Type := string -> option string.

Definition storage_set (k v : string) (s : Storage) : Storage :=
  fun k' => if String.eqb k' k then Some v else s k'.

Definition storage_remove (k : string) (s : Storage) : Storage :=
  fun k' => if String.eqb k' k then None else s k'.

(** [localStorage]: its entries, and for each method the exception it
    throws, if any, when called with the given arguments (storage blocked
    by the browser, quota exceeded).  A method that throws changes
    nothing. *)
Record LocalStorage : Type := {
  entries : Storage;
  getItem_throws : string -> option exn;
  setItem_throws : string -> string -> option exn;
  removeItem_throws : string -> option exn
}.

Definition with_entries (e : Storage) (ls : LocalStorage) : LocalStorage :=
  {| entries := e;
     getItem_throws := getItem_throws ls;
     setItem_throws := setItem_throws ls;
     removeItem_throws := removeItem_throws ls |}.

(** The origin check of the module fails: [window.self !== window.top]. *)
Definition cross_origin : exn := JsError "Cross-origin frame access denied".

(** [SecureStorage]: each method returns its value, or the storage
    afterwards, and the lines given to [console.warn].  [framed] is
    [window.self !== window.top].  The [catch] of each method takes both
    the failed origin check and an exception of [localStorage]. *)
Definition getItem (framed : bool) (key : string) (ls : LocalStorage)
  : option string * list (string * exn) :=
  if framed then (None, [("Storage access blocked:", cross_origin)])
  else
    match getItem_throws ls key with
    | Some e => (None, [("Storage access blocked:", e)])
    | None => (entries ls key, [])
    end.

Definition setItem (framed : bool) (key value : string) (ls : LocalStorage)
  : LocalStorage * list (string * exn) :=
  if framed then (ls, [("Storage write blocked:", cross_origin)])
  else
    match setItem_throws ls key value with
    | Some e => (ls, [("Storage write blocked:", e)])
    | None => (with_entries (storage_set key value (entries ls)) ls, [])
    end.

Definition removeItem (framed : bool) (key : string) (ls : LocalStorage)
  : LocalStorage * list (string * exn) :=
  if framed then (ls, [("Storage removal blocked:", cross_origin)])
  else
    match removeItem_throws ls key with
    | Some e => (ls, [("Storage removal blocked:", e)])
    | None => (with_entries (storage_remove key (entries ls)) ls, [])
    end.

(** What goes out to the backend and to the WebContainer SDK. *)
Inductive call : Type :=
| CallSignUp (email password username : string)
| CallSignIn (email password : string)
| CallSignOut
| CallWebcontainerInit (clientId scope editorOrigin : string) (credentialless : bool)
| ConsoleError (label : string) (e : exn).

Definition is_backend_call (c : call) : bool :=
  match c with
  | ConsoleError _ _ => false
  | _ => true
  end.

(** The value an auth call of the backend resolves to. *)
Record AuthResponse (D : Type) : Type := {
  resp_data : D;
  resp_error : option AuthContext.AuthError
}.
Arguments resp_data {D} _.
Arguments resp_error {D} _.

(** How an exported [async] function ends. *)
Inductive outcome (D : Type) : Type :=
| Returns (d : D)
| Throws (t : AuthContext.thrown).
Arguments Returns {D} d.
Arguments Throws {D} t.

Definition not_in_frames : AuthContext.thrown :=
  AuthContext.ThrownValue (JsError "Auth operations not allowed in frames").

(** [if (error) throw error; return data] after an awaited call. *)
Definition unwrap {D : Type} (r : settled (AuthResponse D)) : outcome D :=
  match r with
  | Rejected e => Throws (AuthContext.ThrownValue e)
  | Resolved resp =>
      match resp_error resp with
      | Some err => Throws (AuthContext.ThrownAuthError err)
      | None => Returns (resp_data resp)
      end
  end.

Definition signUp {D : Type} (framed : bool)
    (backend : string -> string -> string -> settled (AuthResponse D))
    (email password username : string) : outcome D * list call :=
  if framed then (Throws not_in_frames, [])
  else (unwrap (backend email password username),
        [CallSignUp email password username]).

Definition signIn {D : Type} (framed : bool)
    (backend : string -> string -> settled (AuthResponse D))
    (email password : string) : outcome D * list call :=
  if framed then (Throws not_in_frames, [])
  else (unwrap (backend email password), [CallSignIn email password]).

(** [signOut] returns nothing; the [data] of the response is not read. *)
Definition signOut {D : Type} (framed : bool) (backend : settled (AuthResponse D))
  : outcome unit * list call :=
  if framed then (Throws not_in_frames, [])
  else (match unwrap backend with
        | Returns _ => Returns tt
        | Throws t => Throws t
        end,
        [CallSignOut]).

(** The result of [webcontainerAuth.init], and of
    [initializeWebContainerAuth]. *)
Record WebContainerAuthResult : Type := {
  wc_status : string;
  wc_error : option exn
}.

(** [initializeWebContainerAuth]; [origin] is [window.location.origin] and
    [init] how [webcontainerAuth.init(...)] settles. *)
Definition initializeWebContainerAuth (framed : bool) (origin : string)
    (init : settled WebContainerAuthResult) (clientId : string)
  : WebContainerAuthResult * list call :=
  let failed (e : exn) :=
    {| wc_status := "error"; wc_error := Some e |} in
  if framed then
    let e := JsError "WebContainer auth must run in top frame" in
    (failed e, [ConsoleError "WebContainer auth failed:" e])
  else
    let c := CallWebcontainerInit clientId "policy-simulator" origin true in
    match init with
    | Resolved r => (r, [c])
    | Rejected e => (failed e, [c; ConsoleError "WebContainer auth failed:" e])
    end.

End AuthLib.

(** ** Projection chart ([PolicyChart.tsx]): the series handed to the plot

    Floating point is not modelled: [num] stands for the JavaScript
    numbers and [scaled v i] for whatever the code computes from [v] and
    the index [i]; only the shape of the series is reasoned about. *)

Module PolicyChart.







Section Series.
Variable num : Type.
Variable zero : num.
Variable scaled : num -> nat -> num.












End Series.

End PolicyChart.

(** ** A concrete deployment

    A small codec and a handful of tokens, on which the definitions above
    can be run.  The MAC tags a message with the algorithm and the key; the
    decoder knows the tokens listed in [decode]. *)

Module Demo.

Import Jsonwebtoken.

Definition now : Z := 1000.

Definition env : Env.EnvVariables := {| Env.JWT_SECRET := "s3cret" |}.

(** Dots become underscores, so that a tag never contains the separator
    of the compact serialization. *)
Fixpoint undot (s : string) : string :=
  match s with
  | EmptyString => EmptyString
  | String c r =>
      String (if Ascii.eqb c "."%char then "_"%char else c) (undot r)
  end.

Definition mac (a key message : string) : string :=
  a ++ ":" ++ key ++ ":" ++ undot message.

Definition segments (a : string) (p : claims) : string :=
  a ++ "." ++ Env.or_empty (userId p) ++ "@" ++ Env.or_empty (sessionId p).

(** [s.split('.')] *)
Fixpoint split_dots (s : string) : list string :=
  match s with
  | EmptyString => [EmptyString]
  | String c r =>
      match split_dots r with
      | h :: t => if Ascii.eqb c "."%char then EmptyString :: h :: t
                  else String c h :: t
      | [] => []
      end
  end.

(** Claims of a session of user [u1]. *)
Definition session (a : option audience) (e : option Z) : claims :=
  {| userId := Some "u1"; role := Some "analyst"; sessionId := Some "s1";
     iat := Some 100%Z; exp := e; nbf := None; iss := Some "policy-sonar";
     aud := a; sub := None; jti := None |}.

Definition both : option audience := Some (AudMany ["web"; "mobile"]).

(** The payloads [{userId: "u1"}] and the one whose [userId] is the empty
    string. *)
Definition u1_payload : Jwt.JWTPayload :=
  {| Jwt.p_userId := "u1"; Jwt.p_role := None; Jwt.p_sessionId := None;
     Jwt.p_nbf := None; Jwt.p_iss := None; Jwt.p_aud := None;
     Jwt.p_sub := None; Jwt.p_jti := None |}.

Definition blank_payload : Jwt.JWTPayload :=
  {| Jwt.p_userId := EmptyString; Jwt.p_role := None; Jwt.p_sessionId := None;
     Jwt.p_nbf := None; Jwt.p_iss := None; Jwt.p_aud := None;
     Jwt.p_sub := None; Jwt.p_jti := None |}.

(** The header and payload segments this codec can read, with the claims
    they stand for. *)
Definition known_segments (raw : string) : option claims :=
  if String.eqb raw "u1.valid" then Some (session both (Some 2000%Z))
  else if String.eqb raw "abc.def" then Some (session both (Some 500%Z))
  else if String.eqb raw "u1.web" then Some (session (Some (AudOne "web")) (Some 2000%Z))
  else if String.eqb raw "HS256.u1@" then
    Some (Jwt.issued_claims now u1_payload Jwt.access)
  else if String.eqb raw "HS256.@" then
    Some (Jwt.issued_claims now blank_payload Jwt.access)
  else None.

(** Three segments, the first two known: header, payload, signature. *)
Definition decode (s : string) : option jws :=
  match split_dots s with
  | [h; p; sg] =>
      match known_segments (h ++ "." ++ p) with
      | Some c =>
          Some {| alg := "HS256"; payload := c;
                  signing_input := h ++ "." ++ p; signature := sg |}
      | None => None
      end
  | _ => None
  end.

(** The token over [raw] signed with [key]. *)
Definition token_over (key raw : string) : string :=
  raw ++ "." ++ mac "HS256" key raw.

(** A session token of [u1], good until 2000. *)
Definition valid_token : string := token_over "s3cret" "u1.valid".

(** The same segments signed by someone who guessed the secret wrong. *)
Definition forged_token : string := token_over "guess" "u1.valid".

(** A token of [u1] addressed to ["web"] alone. *)
Definition web_token : string := token_over "s3cret" "u1.web".

(** A token that expired at 500, and the specification's header for it. *)
Definition expired_token : string := "abc.def.ghi".

Definition codec : JwsCodec :=
  {| encode_segments := segments; decode_compact := decode; jwa_sign := mac |}.

Definition alice : Loader.ProfileRow :=
  {| Loader.id := "u1"; Loader.username := "alice"; Loader.full_name := None;
     Loader.avatar_url := None; Loader.roles := None |}.

(** A store holding the single profile [alice]. *)
Definition store_with_alice : Loader.Store :=
  fun q =>
    match Loader.eq_value q with
    | Some "u1" => Resolved {| Loader.data := Some alice; Loader.error := None |}
    | _ =>
        Resolved {| Loader.data := None;
                    Loader.error := Some {| Loader.pg_message := "no rows";
                                            Loader.pg_code := "PGRST116" |} |}
    end.

(** A store without profiles. *)
Definition empty_store : Loader.Store :=
  fun _ =>
    Resolved {| Loader.data := None;
                Loader.error := Some {| Loader.pg_message := "no rows";
                                        Loader.pg_code := "PGRST116" |} |}.

(** A store whose transport fails. *)
Definition broken_store : Loader.Store :=
  fun _ => Rejected (JsError "fetch failed").

Definition analyst : AuthContext.Profile :=
  {| AuthContext.id := "u1"; AuthContext.username := "alice";
     AuthContext.full_name := None; AuthContext.avatar_url := None;
     AuthContext.roles := Some ["analyst"] |}.

Definition signed_in : AuthContext.State :=
  {| AuthContext.user := Some {| AuthContext.uid := "u1";
                                 AuthContext.email := Some "alice@example.org" |};
     AuthContext.profile := Some analyst;
     AuthContext.isLoading := false |}.

Definition bad_credentials : AuthContext.AuthError :=
  {| AuthContext.message := "Invalid login credentials";
     AuthContext.status := Some 400%Z |}.

Definition reject_login : string -> string -> settled AuthContext.SignInResponse :=
  fun _ _ =>
    Resolved {| AuthContext.data_user := None;
                AuthContext.signin_error := Some bad_credentials |}.

(** The header ["Bearer a<LF>b"]. *)
Definition two_line_header : string :=
  "Bearer a" ++ String (ascii_of_nat 10) "b".

(** A profile table in which only [u1] has a row. *)
Definition profiles : AuthContext.ProfileStore :=
  fun userId =>
    if String.eqb userId "u1"
    then Resolved {| AuthContext.profile_data := Some analyst;
                     AuthContext.profile_error := None |}
    else Resolved {| AuthContext.profile_data := None;
                     AuthContext.profile_error :=
                       Some {| AuthContext.query_message := "no rows" |} |}.

(** A profile table that cannot be reached. *)
Definition unreachable_profiles : AuthContext.ProfileStore :=
  fun _ => Rejected (JsError "Failed to fetch").

Definition bob : AuthContext.User :=
  {| AuthContext.uid := "u2"; AuthContext.email := Some "bob@example.org" |}.

Definition bob_session : AuthContext.Session :=
  {| AuthContext.session_user := bob; AuthContext.access_token := "t2" |}.

(** A browser storage holding one session entry; it is full, so that
    writing the key ["big"] exceeds the quota. *)
Definition one_entry : AuthLib.LocalStorage :=
  {| AuthLib.entries :=
       fun k => if String.eqb k "sb-auth-token" then Some "session" else None;
     AuthLib.getItem_throws := fun _ => None;
     AuthLib.setItem_throws :=
       fun k _ => if String.eqb k "big"
                  then Some (JsError "The quota has been exceeded.")
                  else None;
     AuthLib.removeItem_throws := fun _ => None |}.


End Demo.

(** * Properties *)

(** ** Strings *)

Section StringFacts.
Import JsString.

Lemma is_empty_true (s : string) : is_empty s = true <-> s = EmptyString.
Proof. destruct s; simpl; split; congruence. Qed.

Lemma is_empty_false (s : string) : is_empty s = false <-> s <> EmptyString.
Proof. destruct s; simpl; split; congruence. Qed.

Lemma all_chars_app (p : ascii -> bool) (a b : string) :
  all_chars p (a ++ b) = all_chars p a && all_chars p b.
Proof.
  induction a as [|c a IH]; simpl; [reflexivity|].
  now rewrite IH, andb_assoc.
Qed.

(** [trimStart] removes a run of whitespace from the front. *)
Lemma trimStart_split (s : string) :
  exists l, s = l ++ trimStart s /\ all_chars is_whitespace l = true.
Proof.
  induction s as [|c s [l [Hs Hl]]]; simpl.
  - exists EmptyString; split; reflexivity.
  - destruct (is_whitespace c) eqn:Hc.
    + exists (String c l); simpl; rewrite Hc, Hl; split; [now f_equal|reflexivity].
    + exists EmptyString; split; reflexivity.
Qed.

(** [trimEnd] removes a run of whitespace from the back. *)
Lemma trimEnd_split (s : string) :
  exists r, s = trimEnd s ++ r /\ all_chars is_whitespace r = true.
Proof.
  induction s as [|c s [r [Hs Hr]]]; simpl.
  - exists EmptyString; split; reflexivity.
  - destruct (is_whitespace c) eqn:Hc; simpl.
    + destruct (is_empty (trimEnd s)) eqn:He.
      * apply is_empty_true in He. rewrite He in Hs; simpl in Hs.
        exists (String c r); simpl; rewrite Hc, Hr; split; [now f_equal|reflexivity].
      * exists r; simpl; split; [now f_equal|assumption].
    + exists r; simpl; split; [now f_equal|assumption].
Qed.

Lemma trimStart_first (s : string) (c : ascii) :
  first_char (trimStart s) = Some c -> is_whitespace c = false.
Proof.
  induction s as [|d s IH]; simpl; [discriminate|].
  destruct (is_whitespace d) eqn:Hd; simpl; [assumption|].
  now intros [= <-].
Qed.

Lemma trimEnd_first (s : string) (c : ascii) :
  first_char (trimEnd s) = Some c -> first_char s = Some c.
Proof.
  destruct s as [|d s]; simpl; [discriminate|].
  destruct (is_whitespace d && is_empty (trimEnd s)); simpl; [discriminate|trivial].
Qed.

Lemma trimEnd_last (s : string) (c : ascii) :
  last_char (trimEnd s) = Some c -> is_whitespace c = false.
Proof.
  induction s as [|d s IH]; simpl; [discriminate|].
  destruct (is_whitespace d) eqn:Hd; simpl.
  - destruct (trimEnd s) as [|e t] eqn:Ht; simpl; [discriminate|].
    exact IH.
  - destruct (trimEnd s) as [|e t] eqn:Ht; simpl.
    + now intros [= <-].
    + exact IH.
Qed.

(** A trimmed string is the original without a whitespace run on either
    side, and neither begins nor ends with whitespace. *)
Lemma trim_spec (s : string) :
  (exists l r, s = l ++ trim s ++ r
               /\ all_chars is_whitespace l = true
               /\ all_chars is_whitespace r = true)
  /\ (forall c, first_char (trim s) = Some c -> is_whitespace c = false)
  /\ (forall c, last_char (trim s) = Some c -> is_whitespace c = false).
Proof.
  unfold trim. split; [|split].
  - destruct (trimStart_split s) as [l [Hs Hl]].
    destruct (trimEnd_split (trimStart s)) as [r [Ht Hr]].
    exists l, r. split; [|split; assumption].
    now rewrite <- Ht.
  - intros c Hc. apply trimEnd_first in Hc. now apply trimStart_first in Hc.
  - intros c. apply trimEnd_last.
Qed.

(** [startsWith("Bearer ")] cuts the header in two. *)
Lemma startsWith_Bearer (s : string) :
  startsWith "Bearer " s = true -> s = "Bearer " ++ substring_from 7 s.
Proof.
  unfold startsWith.
  do 7 (destruct s as [|? s]; cbn [prefix]; [discriminate|];
        match goal with
        | |- context [ascii_dec ?a ?b] => destruct (ascii_dec a b); [subst|discriminate]
        end).
  intros _. reflexivity.
Qed.

Lemma startsWith_Bearer_intro (r : string) :
  startsWith "Bearer " ("Bearer " ++ r) = true
  /\ substring_from 7 ("Bearer " ++ r) = r.
Proof.
  unfold startsWith; cbn [prefix append].
  repeat match goal with
         | |- context [ascii_dec ?a ?a] =>
             destruct (ascii_dec a a); [|congruence]
         end.
  split; [now destruct r|reflexivity].
Qed.

End StringFacts.

(** ** Header extractor *)

Section Extractor.
Import JsString.

Lemma all_chars_substring_from (p : ascii -> bool) (n : nat) (s : string) :
  all_chars p s = true -> all_chars p (substring_from n s) = true.
Proof.
  revert s; induction n as [|n IH]; intros [|c s]; simpl; trivial.
  intros H; apply andb_prop in H; now apply IH.
Qed.

Lemma extract_some_iff (h : option string) (t : string) :
  extractTokenFromHeader h = Some t <->
  exists s, h = Some s /\ startsWith "Bearer " s = true
            /\ t = trim (substring_from 7 s) /\ t <> EmptyString.
Proof.
  unfold extractTokenFromHeader. split.
  - destruct h as [s|]; [|discriminate].
    destruct (startsWith "Bearer " s) eqn:Hp; cbn [negb]; cbv zeta; [|discriminate].
    destruct (is_empty (trim (substring_from 7 s))) eqn:He; [discriminate|].
    intros [= <-]. exists s. repeat split; trivial.
    now apply is_empty_false.
  - intros [s [-> [Hp [-> Hne]]]]. rewrite Hp; cbn [negb]; cbv zeta.
    apply is_empty_false in Hne. now rewrite Hne.
Qed.

(** Why header values: a string with a line feed in it, which no header
    value contains, yields a token although it does not match
    [^Bearer .+$] (the atom [.] stops at the line feed). *)
Lemma extractTokenFromHeader_line_feed :
  matches_bearer_regex Demo.two_line_header = false
  /\ extractTokenFromHeader (Some Demo.two_line_header)
     = Some ("a" ++ String (ascii_of_nat 10) "b").
Proof. split; reflexivity. Qed.

(** C6.  [extractTokenFromHeader] returns a token [t] exactly when the
    header is present, starts with the literal ["Bearer "], and the rest
    of it, trimmed, is the non-empty [t]; the header then reads
    ["Bearer "], a run of whitespace, [t], a run of whitespace, and [t]
    neither begins nor ends with whitespace.  An absent header yields
    nothing, and so does every header value that does not match
    [^Bearer .+$]; a header value is a string of code units 0..255
    without line feed or carriage return, which is what the fourth part
    asks of [s]. *)
Theorem extractTokenFromHeader_spec (h : option string) :
  (forall t,
      extractTokenFromHeader h = Some t <->
      exists s, h = Some s /\ startsWith "Bearer " s = true
                /\ t = trim (substring_from 7 s) /\ t <> EmptyString)
  /\ (forall t,
        extractTokenFromHeader h = Some t ->
        (exists l r, h = Some ("Bearer " ++ l ++ t ++ r)
                     /\ all_chars is_whitespace l = true
                     /\ all_chars is_whitespace r = true)
        /\ (forall c, first_char t = Some c -> is_whitespace c = false)
        /\ (forall c, last_char t = Some c -> is_whitespace c = false))
  /\ (h = None -> extractTokenFromHeader h = None)
  /\ (forall s,
        h = Some s ->
        all_chars (fun c => negb (is_line_terminator c)) s = true ->
        matches_bearer_regex s = false ->
        extractTokenFromHeader h = None).
Proof.
  split; [intros t; apply extract_some_iff|]. split; [|split].
  - intros t Ht. apply extract_some_iff in Ht.
    destruct Ht as [s [-> [Hp [Ht _]]]].
    destruct (trim_spec (substring_from 7 s)) as [[l [r [Hs [Hl Hr]]]] [Hf Hla]].
    rewrite <- Ht in *. split; [|split; assumption].
    exists l, r. split; [|split; assumption].
    f_equal. rewrite (startsWith_Bearer s Hp) at 1. now rewrite <- Hs.
  - intros ->. reflexivity.
  - intros s -> Hlt Hre.
    destruct (extractTokenFromHeader (Some s)) as [t|] eqn:Ht; [|reflexivity].
    exfalso. apply extract_some_iff in Ht.
    destruct Ht as [s' [[= <-] [Hp [Ht Hne]]]].
    unfold matches_bearer_regex in Hre.
    rewrite Hp in Hre.
    rewrite (all_chars_substring_from _ 7 s Hlt) in Hre.
    destruct (substring_from 7 s) eqn:Hr; [|discriminate Hre].
    apply Hne. rewrite Ht. reflexivity.
Qed.

Lemma extractTokenFromHeader_spec_witness :
  extractTokenFromHeader (Some "Bearer   tok  ") = Some "tok"
  /\ extractTokenFromHeader (Some "Basic dXNlcg==") = None.
Proof.
  split.
  - apply (proj1 (extractTokenFromHeader_spec (Some "Bearer   tok  "))).
    exists "Bearer   tok  ". repeat split; try reflexivity. discriminate.
  - apply (proj2 (proj2 (proj2 (extractTokenFromHeader_spec (Some "Basic dXNlcg=="))))
             "Basic dXNlcg==" eq_refl); reflexivity.
Defined.

End Extractor.

(** ** Environment and module initialisation *)

(** C7, as stated, is false: with the secret absent, evaluating the
    token-handling module throws. *)
Lemma module_init_absent_secret_counterexample :
  Jwt.module_init (fst (Env.load None))
  = Throw (JsError "JWT_SECRET environment variable is not set")
  /\ ~ (forall v, JsString.is_empty (Env.or_empty v) = true ->
                  exists u, Jwt.module_init (fst (Env.load v)) = Ok u).
Proof.
  split; [reflexivity|].
  intros H. destruct (H None eq_refl) as [u Hu]. discriminate Hu.
Qed.

(** C7 (amended).  When the signing-secret value is absent (not set, or
    set to the empty string), the environment lookup logs one error line
    and goes on with the empty string as the secret; the initialisation of
    the token-handling module then throws
    ["JWT_SECRET environment variable is not set"]. *)
Theorem absent_secret_logged_then_rejected (v : option string) :
  JsString.is_empty (Env.or_empty v) = true ->
  Env.load v = ({| Env.JWT_SECRET := EmptyString |},
                ["Missing required environment variable: JWT_SECRET"])
  /\ Jwt.module_init (fst (Env.load v))
     = Throw (JsError "JWT_SECRET environment variable is not set").
Proof.
  intros H. apply is_empty_true in H.
  unfold Jwt.module_init, Env.load. cbn [fst Env.JWT_SECRET].
  rewrite H. split; reflexivity.
Qed.

Lemma absent_secret_logged_then_rejected_witness :
  Env.load (Some EmptyString)
  = ({| Env.JWT_SECRET := EmptyString |},
     ["Missing required environment variable: JWT_SECRET"])
  /\ Jwt.module_init (fst (Env.load (Some EmptyString)))
     = Throw (JsError "JWT_SECRET environment variable is not set").
Proof.
  apply (absent_secret_logged_then_rejected (Some EmptyString)). reflexivity.
Defined.

(** With a secret in place both modules initialise quietly. *)
Lemma present_secret_initialises (s : string) :
  JsString.is_empty s = false ->
  Env.load (Some s) = ({| Env.JWT_SECRET := s |}, [])
  /\ Jwt.module_init (fst (Env.load (Some s))) = Ok tt.
Proof.
  intros H. unfold Jwt.module_init, Env.load. cbn [fst Env.JWT_SECRET Env.or_empty].
  rewrite H. split; reflexivity.
Qed.

(** ** Token codec *)

Section TokenCodec.
Import Jsonwebtoken Jwt.
Context {C : JwsCodec}.

(** [verifyToken] decodes, runs the checks of [token_accepted], and hides
    every failure behind one error. *)
Lemma verifyToken_eq (now : Z) (env : Env.EnvVariables) (token : string) :
  verifyToken now env token =
  match decode_compact token with
  | Some t => if token_accepted now env t then Ok (payload t) else Throw invalid_token
  | None => Throw invalid_token
  end.
Proof.
  unfold verifyToken, verify, token_accepted, invalid_token.
  destruct (decode_compact token) as [t|]; [|reflexivity].
  cbn [algorithms issuer audience_opt verify_options]. cbv zeta.
  set (b1 := JsString.is_empty (JsString.trim (signature t))).
  set (b2 := JsString.is_empty (Env.JWT_SECRET env)).
  set (b3 := mem (alg t) ["HS256"]).
  set (b4 := String.eqb (signature t) _).
  set (b5 := match nbf (payload t) with Some n => Z.leb n now | None => true end).
  set (b6 := match exp (payload t) with Some e => Z.ltb now e | None => true end).
  set (b7 := existsb _ _).
  set (b8 := match iss (payload t) with Some i => String.eqb i ISSUER | None => false end).
  clearbody b1 b2 b3 b4 b5 b6 b7 b8.
  destruct b1, b2, b3, b4, b5, b6, b7, b8; try reflexivity;
    cbn; destruct (truthy (userId (payload t))); reflexivity.
Qed.

Lemma verifyToken_throw (now : Z) (env : Env.EnvVariables) (token : string) (e : exn) :
  verifyToken now env token = Throw e -> e = invalid_token.
Proof.
  rewrite verifyToken_eq.
  destruct (decode_compact token) as [t|]; [destruct (token_accepted now env t)|];
    congruence.
Qed.

Lemma verifyToken_ok (now : Z) (env : Env.EnvVariables) (token : string) (c : claims) :
  verifyToken now env token = Ok c ->
  exists t, decode_compact token = Some t
            /\ token_accepted now env t = true /\ c = payload t.
Proof.
  rewrite verifyToken_eq.
  destruct (decode_compact token) as [t|]; [|discriminate].
  destruct (token_accepted now env t) eqn:Ha; [|discriminate].
  intros [= <-]. now exists t.
Qed.

(** A verified payload carries a non-empty user id. *)
Lemma verifyToken_userId (now : Z) (env : Env.EnvVariables) (token : string) (c : claims) :
  verifyToken now env token = Ok c ->
  exists u, userId c = Some u /\ u <> EmptyString.
Proof.
  intros H. apply verifyToken_ok in H. destruct H as [t [_ [Ha ->]]].
  unfold token_accepted in Ha.
  repeat (apply andb_prop in Ha; destruct Ha as [Ha ?]).
  unfold truthy in *. destruct (userId (payload t)) as [u|]; [|discriminate].
  exists u. split; [reflexivity|].
  apply is_empty_false. now apply negb_true_iff.
Qed.

Lemma mem_In (s : string) (l : list string) : mem s l = true <-> In s l.
Proof.
  unfold mem. rewrite existsb_exists. split.
  - intros [x [Hx He]]. apply String.eqb_eq in He. now subst.
  - intros H. exists s. split; [assumption|apply String.eqb_refl].
Qed.

Lemma sign_options_rejected (kind : TokenType) :
  validateOptions (sign_options kind)
  = Throw (JsError (quoted "type" ++ " is not allowed in " ++ quoted "options")).
Proof. destruct kind; reflexivity. Qed.

Lemma sign_options_algorithm (kind : TokenType) :
  get "algorithm" (sign_options kind) = Some (VStr "HS256")
  /\ get "expiresIn" (sign_options kind)
     = Some (VStr (match kind with access => "15m" | refresh => "7d" end))
  /\ get "notBefore" (sign_options kind) = None.
Proof. destruct kind; repeat split; reflexivity. Qed.

(** [createToken] hands [sign] an options object that still carries the
    key [type] of [TOKEN_CONFIG]; [sign] refuses options it does not know,
    so every call throws and no token is produced. *)
Lemma createToken_throws (now : Z) (env : Env.EnvVariables)
    (payload : JWTPayload) (kind : TokenType) :
  createToken now env payload kind
  = Throw (JsError
             (if JsString.is_empty (Env.JWT_SECRET env)
              then "secretOrPrivateKey must have a value"
              else quoted "type" ++ " is not allowed in " ++ quoted "options")).
Proof.
  unfold createToken, sign.
  destruct (sign_options_algorithm kind) as [Ha [He Hn]].
  rewrite Ha, He, Hn, sign_options_rejected.
  cbn [defined]. rewrite andb_false_r.
  destruct (JsString.is_empty (Env.JWT_SECRET env)); reflexivity.
Qed.

(** C1.  On the code the round trip cannot be run.  For every payload and
    either token kind [createToken] throws, so that
    [verifyToken(createToken(payload, kind))] throws as well, at whatever
    instant the verification would take place: the options handed to
    [sign] still carry the key [type] of [TOKEN_CONFIG], which [sign]
    rejects. *)
Theorem createToken_roundtrip_throws (now later : Z) (env : Env.EnvVariables)
    (payload : JWTPayload) (kind : TokenType) :
  (forall token, createToken now env payload kind <> Ok token)
  /\ (token <- createToken now env payload kind ;; verifyToken later env token)
     = Throw (JsError
                (if JsString.is_empty (Env.JWT_SECRET env)
                 then "secretOrPrivateKey must have a value"
                 else quoted "type" ++ " is not allowed in " ++ quoted "options")).
Proof.
  rewrite createToken_throws. split.
  - intros token. discriminate.
  - reflexivity.
Qed.

(** What the code is after: without the stray [type] key, and for a
    payload that names no issuer and no audience of its own, [sign] issues
    a token whose claims are the payload plus [iat], [exp], [iss], [aud]. *)
Lemma sign_without_type (now : Z) (env : Env.EnvVariables)
    (pl : JWTPayload) (kind : TokenType) :
  JsString.is_empty (Env.JWT_SECRET env) = false ->
  p_iss pl = None ->
  p_aud pl = None ->
  sign now (to_claims pl) (Env.JWT_SECRET env)
    (delete "type" (sign_options kind))
  = Ok (encode_segments "HS256" (issued_claims now pl kind) ++ "."
        ++ jwa_sign "HS256" (Env.JWT_SECRET env)
             (encode_segments "HS256" (issued_claims now pl kind))).
Proof.
  intros Hs Hi Ha. unfold sign.
  destruct pl as [u r sid n i a sb j]. cbn in Hi, Ha. subst i a.
  destruct n; destruct kind; cbn [delete sign_options spread TOKEN_CONFIG fold_left set get
                        fst snd String.eqb Ascii.eqb Bool.eqb];
    rewrite Hs; reflexivity.
Qed.

(** ... and that token verifies, from its [nbf] (when the payload has one)
    until it expires, to those claims: the round trip the code aims at,
    for a payload with a non-empty user id and a codec that decodes what
    it encoded. *)
Lemma roundtrip_without_type (now later : Z) (env : Env.EnvVariables)
    (pl : JWTPayload) (kind : TokenType) :
  let secret := Env.JWT_SECRET env in
  let c := issued_claims now pl kind in
  let input := encode_segments "HS256" c in
  let tag := jwa_sign "HS256" secret input in
  JsString.is_empty secret = false ->
  JsString.is_empty (p_userId pl) = false ->
  p_iss pl = None ->
  p_aud pl = None ->
  (forall n, p_nbf pl = Some n -> (n <= later)%Z) ->
  JsString.is_empty (JsString.trim tag) = false ->
  decode_compact (input ++ "." ++ tag)
  = Some {| alg := "HS256"; payload := c; signing_input := input; signature := tag |} ->
  (later < now + lifetime kind)%Z ->
  exists token,
    sign now (to_claims pl) secret (delete "type" (sign_options kind)) = Ok token
    /\ verifyToken later env token = Ok c
    /\ userId c = Some (p_userId pl)
    /\ role c = p_role pl
    /\ sessionId c = p_sessionId pl.
Proof.
  intros secret c input tag Hs Hu Hi Ha Hn Ht Hd Hl.
  exists (input ++ "." ++ tag). split; [now apply sign_without_type|].
  split; [|repeat split].
  rewrite verifyToken_eq, Hd. unfold token_accepted.
  cbn [alg payload signing_input signature].
  fold secret. fold input. fold tag. rewrite Ht, Hs, String.eqb_refl.
  subst c. cbn [issued_claims nbf exp aud iss userId audience_targets].
  apply Z.ltb_lt in Hl. rewrite Hl.
  assert (Hnb : match p_nbf pl with Some n => Z.leb n later | None => true end = true).
  { destruct (p_nbf pl) as [n|]; [|reflexivity]. apply Z.leb_le. now apply Hn. }
  rewrite Hnb. unfold truthy. rewrite Hu. reflexivity.
Qed.

Lemma token_accepted_false_intro (now : Z) (env : Env.EnvVariables) (t : jws) :
  refused_token now env t -> token_accepted now env t = false.
Proof.
  unfold refused_token, token_accepted.
  intros [[key [Hk Hne]] | [[e [He Hle]] | [Hi | [Ha | Hu]]]].
  - assert (Hb : String.eqb (signature t)
                   (jwa_sign (alg t) (Env.JWT_SECRET env) (signing_input t)) = false).
    { apply String.eqb_neq. congruence. }
    rewrite Hb. now rewrite ?andb_false_r.
  - rewrite He. apply Z.ltb_ge in Hle. rewrite Hle. now rewrite ?andb_false_r.
  - assert (Hb : match iss (payload t) with
                 | Some i => String.eqb i ISSUER
                 | None => false
                 end = false).
    { destruct (iss (payload t)) as [i|]; [|reflexivity].
      apply String.eqb_neq. congruence. }
    rewrite Hb. now rewrite ?andb_false_r.
  - assert (Hb : existsb (fun target => mem target AUDIENCE)
                   (audience_targets (aud (payload t))) = false).
    { destruct (existsb _ _) eqn:Hex; [|reflexivity].
      apply existsb_exists in Hex. destruct Hex as [a [Hin Hm]].
      apply mem_In in Hm. now destruct (Ha a Hin). }
    rewrite Hb. now rewrite ?andb_false_r.
  - rewrite Hu. now rewrite ?andb_false_r.
Qed.

(** C2 (amended).  A token signed under another key (so that its MAC is
    not the one the configured secret gives), or expired, or whose issuer
    is not ["policy-sonar"], or none of whose audiences is ["web"] or
    ["mobile"], or without a non-empty [userId], is refused by
    [verifyToken]; so is a token that does not decode; and whatever makes
    [verifyToken] fail, the error thrown is the same
    ["Invalid or expired token"]. *)
Theorem verifyToken_refuses (now : Z) (env : Env.EnvVariables) (token : string) :
  (forall t, decode_compact token = Some t ->
             refused_token now env t ->
             verifyToken now env token = Throw invalid_token)
  /\ (decode_compact token = None -> verifyToken now env token = Throw invalid_token)
  /\ (forall e, verifyToken now env token = Throw e -> e = invalid_token).
Proof.
  split; [|split].
  - intros t Hd Hr. rewrite verifyToken_eq, Hd.
    now rewrite (token_accepted_false_intro now env t Hr).
  - intros Hd. now rewrite verifyToken_eq, Hd.
  - apply verifyToken_throw.
Qed.

End TokenCodec.

Section TokenCodecExamples.
Import Jsonwebtoken Jwt.

(** The token [sign] would issue for a payload whose [userId] is the
    empty string is refused by [verifyToken], which takes an empty
    [userId] for a missing one. *)
Lemma blank_userId_refused :
  exists token,
    @sign Demo.codec Demo.now (to_claims Demo.blank_payload) "s3cret"
      (delete "type" (sign_options access)) = Ok token
    /\ @verifyToken Demo.codec Demo.now Demo.env token = Throw invalid_token.
Proof. eexists. split; reflexivity. Qed.

Lemma roundtrip_without_type_example :
  exists token,
    @sign Demo.codec Demo.now (to_claims Demo.u1_payload) "s3cret"
      (delete "type" (sign_options access)) = Ok token
    /\ @verifyToken Demo.codec 1899%Z Demo.env token
       = Ok (issued_claims Demo.now Demo.u1_payload access).
Proof.
  destruct (@roundtrip_without_type Demo.codec Demo.now 1899%Z Demo.env
              Demo.u1_payload access) as [token [H1 [H2 _]]];
    try reflexivity.
  - intros n Hn. discriminate Hn.
  - exists token. split; assumption.
Qed.

(** C2, as stated, is false: a token whose audience is ["web"] alone
    differs from the fixed [["web", "mobile"]], and verifies. *)
Lemma verifyToken_partial_audience_counterexample :
  exists t,
    @decode_compact Demo.codec Demo.web_token = Some t
    /\ signature t = Demo.mac (alg t) (Env.JWT_SECRET Demo.env) (signing_input t)
    /\ aud (payload t) = Some (AudOne "web")
    /\ aud (payload t) <> Some (AudMany AUDIENCE)
    /\ @verifyToken Demo.codec Demo.now Demo.env Demo.web_token = Ok (payload t).
Proof.
  eexists. split; [reflexivity|]. split; [reflexivity|]. split; [reflexivity|].
  split; [discriminate|reflexivity].
Qed.

Lemma verifyToken_refuses_witness :
  @verifyToken Demo.codec Demo.now Demo.env Demo.forged_token = Throw invalid_token
  /\ @verifyToken Demo.codec Demo.now Demo.env Demo.expired_token = Throw invalid_token.
Proof.
  split.
  - eapply (proj1 (@verifyToken_refuses Demo.codec Demo.now Demo.env Demo.forged_token)).
    + reflexivity.
    + left. exists "guess". split; [reflexivity|discriminate].
  - eapply (proj1 (@verifyToken_refuses Demo.codec Demo.now Demo.env Demo.expired_token)).
    + reflexivity.
    + right; left. exists 500%Z. split; [reflexivity|]. unfold Demo.now. lia.
Defined.

End TokenCodecExamples.

(** ** Auth loader *)

Section LoaderFacts.
Import Jsonwebtoken Loader.
Context {C : JwsCodec}.
Variable now : Z.
Variable env : Env.EnvVariables.
Variable store : Store.

(** No header, or one the extractor turns down: 401, nothing else done. *)
Lemma loader_without_token (authHeader : option string) :
  extractTokenFromHeader authHeader = None ->
  loader now env store authHeader
  = ({| status := 401; body := ErrorBody "Authorization token required" None |}, []).
Proof. intros H. unfold loader. now rewrite H. Qed.

(** C3.  When the bearer token verifies to a payload with user id [u] and
    the store answers the lookup for [u] with a row, the loader answers 200
    with the user view built from that row (the address is the username
    followed by ["@example.com"], absent roles become the empty list) and
    the payload's session id. *)
Theorem loader_success (authHeader : option string) (token : string)
    (payload : claims) (u : string) (row : ProfileRow) :
  extractTokenFromHeader authHeader = Some token ->
  Jwt.verifyToken now env token = Ok payload ->
  userId payload = Some u ->
  store (profile_query (Some u)) = Resolved {| data := Some row; error := None |} ->
  fst (loader now env store authHeader)
  = {| status := 200;
       body := AuthBody
                 {| user_id := Some u;
                    user_email := username row ++ "@example.com";
                    user_username := username row;
                    user_name := full_name row;
                    user_avatar := avatar_url row;
                    user_roles := match roles row with
                                  | Some l => l
                                  | None => []
                                  end |}
                 (sessionId payload) |}.
Proof.
  intros Hx Hv Hu Hs. unfold loader.
  rewrite Hx, Hv, Hu, Hs. reflexivity.
Qed.

(** C5.  When the bearer token verifies and the lookup for the payload's
    user id comes back without a row or with an error, the loader answers
    404 ["User profile not found"]; the lookup is the only thing it did,
    and it is not a write. *)
Theorem loader_profile_not_found (authHeader : option string) (token : string)
    (payload : claims) (r : SingleResult) :
  extractTokenFromHeader authHeader = Some token ->
  Jwt.verifyToken now env token = Ok payload ->
  store (profile_query (userId payload)) = Resolved r ->
  data r = None \/ error r <> None ->
  fst (loader now env store authHeader)
  = {| status := 404; body := ErrorBody "User profile not found" None |}
  /\ snd (loader now env store authHeader)
     = [StoreSelect (profile_query (userId payload))]
  /\ existsb is_store_write (snd (loader now env store authHeader)) = false.
Proof.
  intros Hx Hv Hs Hr. unfold loader.
  rewrite Hx, Hv, Hs.
  destruct (error r) as [err|] eqn:He.
  - repeat split.
  - destruct Hr as [Hd|Hn]; [|congruence].
    rewrite Hd. repeat split.
Qed.

(** The effects of the loader never include a write, whatever happens. *)
Lemma loader_never_writes (authHeader : option string) :
  existsb is_store_write (snd (loader now env store authHeader)) = false.
Proof.
  unfold loader.
  destruct (extractTokenFromHeader authHeader) as [token|]; [|reflexivity].
  destruct (Jwt.verifyToken now env token) as [payload|e]; [|reflexivity].
  destruct (store (profile_query (userId payload))) as [r|e]; [|reflexivity].
  destruct (error r), (data r); reflexivity.
Qed.

(** C4.  When a step after the extraction of the token throws [e] (the
    verification, or the awaited lookup), the loader answers 401
    ["Authentication failed"] with the message of [e] as details
    (["Unknown error"] when [e] is not an [Error]); in particular a token
    that decodes and is expired is answered so, with the details
    ["Invalid or expired token"]. *)
Theorem loader_catches (authHeader : option string) (token : string) :
  extractTokenFromHeader authHeader = Some token ->
  (forall e,
      flow_throws now env store token e ->
      fst (loader now env store authHeader)
      = {| status := 401;
           body := ErrorBody "Authentication failed"
                     (Some (match e with
                            | JsError m => m
                            | JsValue _ => "Unknown error"
                            end)) |})
  /\ (forall t ex,
        decode_compact token = Some t ->
        exp (payload t) = Some ex ->
        (ex <= now)%Z ->
        fst (loader now env store authHeader)
        = {| status := 401;
             body := ErrorBody "Authentication failed"
                       (Some "Invalid or expired token") |}).
Proof.
  intros Hx. split.
  - intros e [Hv | [payload [Hv Hs]]]; unfold loader; rewrite Hx, Hv.
    + reflexivity.
    + rewrite Hs. reflexivity.
  - intros t ex Hd He Hle. unfold loader. rewrite Hx.
    rewrite verifyToken_eq, Hd.
    rewrite (token_accepted_false_intro now env t); [reflexivity|].
    right; left. now exists ex.
Qed.

End LoaderFacts.

Section LoaderExamples.
Import Jsonwebtoken Loader.

Lemma loader_success_witness :
  fst (@loader Demo.codec Demo.now Demo.env Demo.store_with_alice
         (Some ("Bearer " ++ Demo.valid_token)))
  = {| status := 200;
       body := AuthBody
                 {| user_id := Some "u1";
                    user_email := "alice@example.com";
                    user_username := "alice";
                    user_name := None;
                    user_avatar := None;
                    user_roles := [] |}
                 (Some "s1") |}.
Proof.
  apply (@loader_success Demo.codec Demo.now Demo.env Demo.store_with_alice
           (Some ("Bearer " ++ Demo.valid_token)) Demo.valid_token
           (Demo.session Demo.both (Some 2000%Z))
           "u1" Demo.alice); reflexivity.
Defined.

Lemma loader_profile_not_found_witness :
  fst (@loader Demo.codec Demo.now Demo.env Demo.empty_store
         (Some ("Bearer " ++ Demo.valid_token)))
  = {| status := 404; body := ErrorBody "User profile not found" None |}
  /\ snd (@loader Demo.codec Demo.now Demo.env Demo.empty_store
            (Some ("Bearer " ++ Demo.valid_token)))
     = [StoreSelect (profile_query (Some "u1"))]
  /\ existsb is_store_write
       (snd (@loader Demo.codec Demo.now Demo.env Demo.empty_store
               (Some ("Bearer " ++ Demo.valid_token)))) = false.
Proof.
  apply (@loader_profile_not_found Demo.codec Demo.now Demo.env Demo.empty_store
           (Some ("Bearer " ++ Demo.valid_token)) Demo.valid_token
           (Demo.session Demo.both (Some 2000%Z))
           {| data := None;
              error := Some {| pg_message := "no rows"; pg_code := "PGRST116" |} |});
    try reflexivity.
  left. reflexivity.
Defined.

Lemma loader_catches_witness :
  fst (@loader Demo.codec Demo.now Demo.env Demo.store_with_alice
         (Some "Bearer abc.def.ghi"))
  = {| status := 401;
       body := ErrorBody "Authentication failed" (Some "Invalid or expired token") |}
  /\ fst (@loader Demo.codec Demo.now Demo.env Demo.broken_store
            (Some ("Bearer " ++ Demo.valid_token)))
     = {| status := 401;
          body := ErrorBody "Authentication failed" (Some "fetch failed") |}.
Proof.
  split.
  - apply (proj2 (@loader_catches Demo.codec Demo.now Demo.env Demo.store_with_alice
                    (Some "Bearer abc.def.ghi") "abc.def.ghi" eq_refl)
             {| alg := "HS256"; payload := Demo.session Demo.both (Some 500%Z);
                signing_input := "abc.def"; signature := "ghi" |}
             500%Z); [reflexivity|reflexivity|].
    unfold Demo.now. lia.
  - apply (proj1 (@loader_catches Demo.codec Demo.now Demo.env Demo.broken_store
                    (Some ("Bearer " ++ Demo.valid_token)) Demo.valid_token eq_refl)
             (JsError "fetch failed")).
    right. eexists. split; reflexivity.
Defined.

End LoaderExamples.

(** ** Client auth context *)

Section AuthContextFacts.
Import AuthContext.

Lemma existsb_eqb_In (r : string) (l : list string) :
  existsb (String.eqb r) l = true <-> In r l.
Proof.
  rewrite existsb_exists. split.
  - intros [x [Hx He]]. apply String.eqb_eq in He. now subst.
  - intros H. exists r. split; [assumption|apply String.eqb_refl].
Qed.

(** C9.  [hasRole] reads nothing but the cached profile; it is false when
    no profile is loaded, and for a loaded profile it is true exactly when
    the role is one of the profile's roles. *)
Theorem hasRole_spec (st : State) (r : string) :
  (profile st = None -> hasRole st r = false)
  /\ (forall p, profile st = Some p -> (hasRole st r = true <-> In r (role_set p)))
  /\ (forall st', profile st' = profile st -> hasRole st' r = hasRole st r).
Proof.
  unfold hasRole, role_set. split; [|split].
  - intros ->. reflexivity.
  - intros p ->. destruct (roles p) as [rs|].
    + apply existsb_eqb_In.
    + simpl. split; [discriminate|tauto].
  - intros st' ->. reflexivity.
Qed.

Lemma hasRole_spec_witness :
  hasRole Demo.signed_in "analyst" = true
  /\ hasRole initial "analyst" = false.
Proof.
  split.
  - apply (proj1 (proj2 (hasRole_spec Demo.signed_in "analyst")) Demo.analyst eq_refl).
    simpl. left. reflexivity.
  - apply (proj1 (hasRole_spec initial "analyst")). reflexivity.
Defined.

(** C10.  When the backend's credential check resolves with an error,
    [signIn] throws that very error; the cached user and profile are what
    they were before the call, and [isLoading] is false. *)
Theorem signIn_error_keeps_state
    (backend : string -> string -> settled SignInResponse)
    (email password : string) (st : State) (r : SignInResponse) (err : AuthError) :
  backend email password = Resolved r ->
  signin_error r = Some err ->
  signIn backend email password st
  = ({| user := user st; profile := profile st; isLoading := false |},
     Threw (ThrownAuthError err)).
Proof.
  intros Hb He. unfold signIn. rewrite Hb, He. reflexivity.
Qed.

Lemma signIn_error_keeps_state_witness :
  signIn Demo.reject_login "alice@example.org" "wrong" Demo.signed_in
  = (Demo.signed_in, Threw (ThrownAuthError Demo.bad_credentials)).
Proof.
  apply (signIn_error_keeps_state Demo.reject_login "alice@example.org" "wrong"
           Demo.signed_in
           {| data_user := None; signin_error := Some Demo.bad_credentials |}
           Demo.bad_credentials); reflexivity.
Defined.

(** C8, as stated, is false: when the backend call throws, the user and
    the profile stay in the state. *)
Lemma signOut_rejected_counterexample :
  user (fst (signOut (Rejected (JsError "Failed to fetch")) Demo.signed_in))
  = user Demo.signed_in
  /\ profile (fst (signOut (Rejected (JsError "Failed to fetch")) Demo.signed_in))
     = Some Demo.analyst
  /\ ~ (forall backend st,
          user (fst (signOut backend st)) = None
          /\ profile (fst (signOut backend st)) = None).
Proof.
  split; [reflexivity|]. split; [reflexivity|].
  intros H.
  destruct (H (Rejected (JsError "Failed to fetch")) Demo.signed_in) as [Hu _].
  discriminate Hu.
Qed.

(** C8 (amended).  [signOut] hands over to the backend's sign-out call.
    Whenever that call returns, with or without an error in its result,
    the user and the profile are cleared; when the call throws, they are
    left as they were and the exception goes on to the caller.  In every
    case [isLoading] ends up false. *)
Theorem signOut_spec (st : State) :
  (forall r, signOut (Resolved r) st
             = ({| user := None; profile := None; isLoading := false |}, Returned))
  /\ (forall e, signOut (Rejected e) st
                = ({| user := user st; profile := profile st; isLoading := false |},
                   Threw (ThrownValue e)))
  /\ (forall backend, isLoading (fst (signOut backend st)) = false).
Proof.
  split; [|split].
  - intros r. reflexivity.
  - intros e. reflexivity.
  - intros [r|e]; reflexivity.
Qed.

End AuthContextFacts.

(** * Further properties of the code *)

(** ** Token codec: what verification guarantees *)

Section VerificationFacts.
Import Jsonwebtoken Jwt.
Context {C : JwsCodec}.

Lemma audience_overlap_iff (a : option audience) :
  existsb (fun target => mem target AUDIENCE) (audience_targets a) = true
  <-> exists x, In x (audience_targets a) /\ (x = "web" \/ x = "mobile").
Proof.
  rewrite existsb_exists. split; intros [x [Hx Hm]]; exists x; split; trivial.
  - apply mem_In in Hm. simpl in Hm. destruct Hm as [<-|[<-|[]]]; auto.
  - apply mem_In. simpl. destruct Hm as [->| ->]; auto.
Qed.

Lemma mem_HS256 (a : string) : mem a ["HS256"] = true <-> a = "HS256".
Proof.
  rewrite mem_In. simpl. split; [intros [<-|[]]; reflexivity|intros ->; now left].
Qed.

(** The checks of [token_accepted], one by one. *)
Lemma token_accepted_iff (now : Z) (env : Env.EnvVariables) (t : jws) :
  token_accepted now env t = true <->
  JsString.is_empty (JsString.trim (signature t))
  = JsString.is_empty (Env.JWT_SECRET env)
  /\ alg t = "HS256"
  /\ signature t = jwa_sign "HS256" (Env.JWT_SECRET env) (signing_input t)
  /\ (forall n, nbf (payload t) = Some n -> (n <= now)%Z)
  /\ (forall e, exp (payload t) = Some e -> (now < e)%Z)
  /\ (exists x, In x (audience_targets (aud (payload t)))
                /\ (x = "web" \/ x = "mobile"))
  /\ iss (payload t) = Some "policy-sonar"
  /\ (exists u, userId (payload t) = Some u /\ u <> EmptyString).
Proof.
  unfold token_accepted. rewrite !andb_true_iff.
  rewrite audience_overlap_iff, mem_HS256, String.eqb_eq.
  split.
  - intros [[[[[[[H1 H2] H3] H4] H5] H6] H7] H8].
    rewrite H2 in H3. repeat split; trivial.
    + apply eqb_prop in H1.
      destruct (JsString.is_empty (JsString.trim (signature t))),
               (JsString.is_empty (Env.JWT_SECRET env)); simpl in H1; congruence.
    + intros n Hn. rewrite Hn in H4. now apply Z.leb_le.
    + intros e He. rewrite He in H5. now apply Z.ltb_lt.
    + destruct (iss (payload t)) as [i|]; [|discriminate].
      apply String.eqb_eq in H7. now subst.
    + unfold truthy in H8. destruct (userId (payload t)) as [u|]; [|discriminate].
      exists u. split; trivial. apply is_empty_false. now apply negb_true_iff.
  - intros [H1 [H2 [H3 [H4 [H5 [H6 [H7 [u [Hu Hne]]]]]]]]].
    rewrite H2. repeat split; trivial.
    + rewrite H1. now destruct (JsString.is_empty (Env.JWT_SECRET env)).
    + destruct (nbf (payload t)) as [n|]; trivial. apply Z.leb_le. now apply H4.
    + destruct (exp (payload t)) as [e|]; trivial. apply Z.ltb_lt. now apply H5.
    + rewrite H7. apply String.eqb_refl.
    + unfold truthy. rewrite Hu. apply negb_true_iff. now apply is_empty_false.
Qed.

(** X1.  [verifyToken] returns a payload exactly for the tokens that
    decode, name [HS256] in their header, carry the MAC of their first two
    segments under the configured secret, are past their [nbf] and before
    their [exp] (when they have them), are issued by ["policy-sonar"],
    are addressed to ["web"] or ["mobile"], and carry a non-empty
    [userId]; the payload returned is the decoded one. *)
Theorem verifyToken_ok_iff (now : Z) (env : Env.EnvVariables)
    (token : string) (c : claims) :
  verifyToken now env token = Ok c <->
  exists t,
    decode_compact token = Some t /\ c = payload t
    /\ JsString.is_empty (JsString.trim (signature t))
       = JsString.is_empty (Env.JWT_SECRET env)
    /\ alg t = "HS256"
    /\ signature t = jwa_sign "HS256" (Env.JWT_SECRET env) (signing_input t)
    /\ (forall n, nbf c = Some n -> (n <= now)%Z)
    /\ (forall e, exp c = Some e -> (now < e)%Z)
    /\ (exists x, In x (audience_targets (aud c)) /\ (x = "web" \/ x = "mobile"))
    /\ iss c = Some "policy-sonar"
    /\ (exists u, userId c = Some u /\ u <> EmptyString).
Proof.
  split.
  - intros H. apply verifyToken_ok in H. destruct H as [t [Hd [Ha ->]]].
    exists t. split; [assumption|]. split; [reflexivity|].
    now apply token_accepted_iff.
  - intros [t [Hd [-> H]]]. rewrite verifyToken_eq, Hd.
    apply token_accepted_iff in H. now rewrite H.
Qed.

(** X2.  The instants at which a token verifies form an interval: a token
    accepted at [t1] and at [t2] is accepted, with the same payload, at
    every instant between them. *)
Theorem verifyToken_window (env : Env.EnvVariables) (token : string)
    (t1 t2 now : Z) (c1 c2 : claims) :
  verifyToken t1 env token = Ok c1 ->
  verifyToken t2 env token = Ok c2 ->
  (t1 <= now <= t2)%Z ->
  verifyToken now env token = Ok c1.
Proof.
  intros H1 H2 [Hlo Hhi].
  apply verifyToken_ok in H1. destruct H1 as [t [Hd [Ha1 ->]]].
  apply verifyToken_ok in H2. destruct H2 as [t' [Hd' [Ha2 _]]].
  rewrite Hd in Hd'. injection Hd' as <-.
  rewrite verifyToken_eq, Hd.
  apply token_accepted_iff in Ha1. apply token_accepted_iff in Ha2.
  destruct Ha1 as [A1 [A2 [A3 [A4 [_ [A6 [A7 A8]]]]]]].
  destruct Ha2 as [_ [_ [_ [_ [B5 _]]]]].
  assert (Ha : token_accepted now env t = true).
  { apply token_accepted_iff. repeat split; trivial.
    - intros n Hn. specialize (A4 n Hn). lia.
    - intros e He. specialize (B5 e He). lia. }
  now rewrite Ha.
Qed.

(** X3.  With a secret configured, a token without a signature and a token
    whose header names another algorithm than [HS256] are refused. *)
Theorem verifyToken_refuses_unsigned (now : Z) (env : Env.EnvVariables)
    (token : string) (t : jws) :
  JsString.is_empty (Env.JWT_SECRET env) = false ->
  decode_compact token = Some t ->
  JsString.trim (signature t) = EmptyString \/ alg t <> "HS256" ->
  verifyToken now env token = Throw invalid_token.
Proof.
  intros Hs Hd Hbad. rewrite verifyToken_eq, Hd.
  destruct (token_accepted now env t) eqn:Ha; [|reflexivity].
  exfalso. apply token_accepted_iff in Ha.
  destruct Ha as [A1 [A2 _]]. destruct Hbad as [Hsig|Halg]; [|contradiction].
  rewrite Hsig, Hs in A1. discriminate A1.
Qed.

(** X4.  [decodeToken] reads every token [verifyToken] accepts, and reads
    the same payload; a token [decodeToken] cannot read is refused by
    [verifyToken] at every instant and under every secret. *)
Theorem decodeToken_covers_verifyToken (token : string) :
  (forall now env c, verifyToken now env token = Ok c -> decodeToken token = Some c)
  /\ (decodeToken token = None ->
      forall now env, verifyToken now env token = Throw invalid_token).
Proof.
  unfold decodeToken, decode. split.
  - intros now env c H. apply verifyToken_ok in H.
    destruct H as [t [Hd [_ ->]]]. now rewrite Hd.
  - intros H now env. rewrite verifyToken_eq.
    destruct (decode_compact token); [discriminate|reflexivity].
Qed.

(** X5.  [createToken] never returns a token, and so neither do
    [createAccessToken] and [createRefreshToken]: the options passed on to
    [sign] carry the key [type], which [sign] does not accept.  With a
    secret configured the error is the same for both kinds. *)
Theorem createToken_never_returns (now : Z) (env : Env.EnvVariables)
    (payload : JWTPayload) :
  (forall kind token, createToken now env payload kind <> Ok token)
  /\ (forall token, createAccessToken now env payload <> Ok token)
  /\ (forall token, createRefreshToken now env payload <> Ok token)
  /\ (JsString.is_empty (Env.JWT_SECRET env) = false ->
      forall kind,
        createToken now env payload kind
        = Throw (JsError (quoted "type" ++ " is not allowed in " ++ quoted "options"))).
Proof.
  unfold createAccessToken, createRefreshToken.
  split; [|split; [|split]].
  - intros kind token. rewrite createToken_throws. discriminate.
  - intros token. rewrite createToken_throws. discriminate.
  - intros token. rewrite createToken_throws. discriminate.
  - intros Hs kind. rewrite createToken_throws. now rewrite Hs.
Qed.

End VerificationFacts.

Section VerificationExamples.
Import Jsonwebtoken Jwt.

Lemma verifyToken_window_witness :
  @verifyToken Demo.codec 1500%Z Demo.env Demo.valid_token
  = Ok (Demo.session Demo.both (Some 2000%Z)).
Proof.
  apply (@verifyToken_window Demo.codec Demo.env Demo.valid_token
           1000%Z 1999%Z 1500%Z
           (Demo.session Demo.both (Some 2000%Z))
           (Demo.session Demo.both (Some 2000%Z))); try reflexivity.
  lia.
Defined.

Lemma verifyToken_refuses_unsigned_witness :
  @verifyToken Demo.codec Demo.now Demo.env "u1.valid." = Throw invalid_token.
Proof.
  eapply (@verifyToken_refuses_unsigned Demo.codec Demo.now Demo.env "u1.valid.").
  - reflexivity.
  - reflexivity.
  - left. reflexivity.
Defined.

Lemma decodeToken_covers_verifyToken_witness :
  @decodeToken Demo.codec Demo.valid_token
  = Some (Demo.session Demo.both (Some 2000%Z))
  /\ @verifyToken Demo.codec Demo.now Demo.env "not a token" = Throw invalid_token.
Proof.
  split.
  - apply (proj1 (@decodeToken_covers_verifyToken Demo.codec Demo.valid_token)
             Demo.now Demo.env). reflexivity.
  - apply (proj2 (@decodeToken_covers_verifyToken Demo.codec "not a token")).
    reflexivity.
Defined.

Lemma verifyToken_ok_iff_witness :
  exists t,
    @decode_compact Demo.codec Demo.valid_token = Some t
    /\ alg t = "HS256"
    /\ iss (payload t) = Some "policy-sonar"
    /\ (exists u, userId (payload t) = Some u /\ u <> EmptyString).
Proof.
  destruct (proj1 (@verifyToken_ok_iff Demo.codec Demo.now Demo.env Demo.valid_token
                     (Demo.session Demo.both (Some 2000%Z))) eq_refl)
    as [t [Hd [Hc [_ [Ha [_ [_ [_ [_ [Hi Hu]]]]]]]]]].
  exists t. rewrite Hc in Hi, Hu. repeat split; assumption.
Defined.

Lemma createToken_never_returns_witness :
  @createToken Demo.codec Demo.now Demo.env Demo.u1_payload refresh
  = Throw (JsError (quoted "type" ++ " is not allowed in " ++ quoted "options")).
Proof.
  apply (proj2 (proj2 (proj2 (@createToken_never_returns Demo.codec Demo.now Demo.env
                                Demo.u1_payload)))).
  reflexivity.
Defined.

End VerificationExamples.

(** ** Environment and token module, together *)

(** X6.  Loading the environment and then the token module goes one of two
    ways: either the variable holds a non-empty secret, which becomes
    [env.JWT_SECRET], nothing is logged and the token module loads; or the
    secret is empty, one error line is logged and the token module throws.
    The token module thus fails exactly when the environment complained. *)
Theorem env_then_token_module (v : option string) :
  (exists s, v = Some s /\ s <> EmptyString
             /\ Env.load v = ({| Env.JWT_SECRET := s |}, [])
             /\ Jwt.module_init (fst (Env.load v)) = Ok tt)
  \/ ((v = None \/ v = Some EmptyString)
      /\ Env.load v = ({| Env.JWT_SECRET := EmptyString |},
                       ["Missing required environment variable: JWT_SECRET"])
      /\ Jwt.module_init (fst (Env.load v))
         = Throw (JsError "JWT_SECRET environment variable is not set")).
Proof.
  destruct v as [[|c s]|].
  - right. repeat split. now right.
  - left. exists (String c s). repeat split. discriminate.
  - right. repeat split. now left.
Qed.

(** ** Header extractor: round trip *)

Section ExtractorRoundTrip.
Import JsString.

Lemma trimStart_whitespace_app (l s : string) :
  all_chars is_whitespace l = true -> trimStart (l ++ s) = trimStart s.
Proof.
  induction l as [|c l IH]; simpl; [reflexivity|].
  intros H. apply andb_prop in H. destruct H as [Hc Hl].
  rewrite Hc. now apply IH.
Qed.

Lemma trimStart_fixed (t : string) :
  (forall c, first_char t = Some c -> is_whitespace c = false) ->
  trimStart t = t.
Proof.
  destruct t as [|c t]; simpl; [reflexivity|].
  intros H. now rewrite (H c eq_refl).
Qed.

Lemma trimEnd_whitespace (r : string) :
  all_chars is_whitespace r = true -> trimEnd r = EmptyString.
Proof.
  induction r as [|c r IH]; simpl; [reflexivity|].
  intros H. apply andb_prop in H. destruct H as [Hc Hr].
  rewrite (IH Hr), Hc. reflexivity.
Qed.

Lemma trimEnd_app_whitespace (t r : string) :
  t <> EmptyString ->
  (forall c, last_char t = Some c -> is_whitespace c = false) ->
  all_chars is_whitespace r = true ->
  trimEnd (t ++ r) = t.
Proof.
  intros Hne Hlast Hr. induction t as [|c t IH]; [congruence|].
  cbn [append trimEnd]. destruct t as [|d t].
  - cbn [append]. rewrite (trimEnd_whitespace r Hr).
    rewrite (Hlast c eq_refl). reflexivity.
  - rewrite IH; [|discriminate|].
    + cbn [is_empty]. now rewrite andb_false_r.
    + intros e He. apply Hlast. exact He.
Qed.

(** Padding a trimmed, non-empty string with whitespace and trimming again
    gives the string back. *)
Lemma trim_padded (l t r : string) :
  t <> EmptyString ->
  trim t = t ->
  all_chars is_whitespace l = true ->
  all_chars is_whitespace r = true ->
  trim (l ++ t ++ r) = t.
Proof.
  intros Hne Ht Hl Hr.
  destruct (trim_spec t) as [_ [Hf Hla]]. rewrite Ht in Hf, Hla.
  unfold trim. rewrite (trimStart_whitespace_app l _ Hl).
  rewrite trimStart_fixed.
  - now apply trimEnd_app_whitespace.
  - intros c Hc. apply Hf. destruct t; [congruence|exact Hc].
Qed.

Lemma extract_padded (l t r : string) :
  t <> EmptyString ->
  trim t = t ->
  all_chars is_whitespace l = true ->
  all_chars is_whitespace r = true ->
  extractTokenFromHeader (Some ("Bearer " ++ l ++ t ++ r)) = Some t.
Proof.
  intros Hne Ht Hl Hr. unfold extractTokenFromHeader.
  destruct (startsWith_Bearer_intro (l ++ t ++ r)) as [Hp Hs].
  rewrite Hp, Hs. cbn [negb]. cbv zeta.
  rewrite (trim_padded l t r Hne Ht Hl Hr).
  apply is_empty_false in Hne. now rewrite Hne.
Qed.

(** X7.  A token that is not empty and has no whitespace at either end
    comes back unchanged from a header made of ["Bearer "], any run of
    whitespace, the token, and any run of whitespace. *)
Theorem extractTokenFromHeader_roundtrip (l t r : string) :
  t <> EmptyString ->
  trim t = t ->
  all_chars is_whitespace l = true ->
  all_chars is_whitespace r = true ->
  extractTokenFromHeader (Some ("Bearer " ++ l ++ t ++ r)) = Some t.
Proof.
  intros Hne Ht Hl Hr.
  assert (Htrim : trim (substring_from 7 ("Bearer " ++ l ++ t ++ r)) = t).
  { rewrite (proj2 (startsWith_Bearer_intro (l ++ t ++ r))).
    now apply trim_padded. }
  apply extract_some_iff. exists ("Bearer " ++ l ++ t ++ r)%string.
  split; [reflexivity|]. split; [apply startsWith_Bearer_intro|].
  split; [now rewrite Htrim|exact Hne].
Qed.

Lemma extractTokenFromHeader_roundtrip_witness :
  extractTokenFromHeader (Some ("Bearer " ++ "  " ++ "abc.def.ghi" ++ " "))
  = Some "abc.def.ghi".
Proof.
  apply (extractTokenFromHeader_roundtrip "  " "abc.def.ghi" " ");
    try reflexivity.
  discriminate.
Defined.

End ExtractorRoundTrip.

(** ** Auth loader: every path *)

Section LoaderPaths.
Import Jsonwebtoken Loader.
Context {C : JwsCodec}.
Variable now : Z.
Variable env : Env.EnvVariables.
Variable store : Store.

Lemma loader_paths (authHeader : option string) :
  loader_path now env store authHeader.
Proof.
  destruct (extractTokenFromHeader authHeader) as [token|] eqn:Hx.
  - destruct (Jwt.verifyToken now env token) as [payload|e] eqn:Hv.
    + destruct (store (profile_query (userId payload))) as [r|e] eqn:Hs.
      * destruct (error r) as [err|] eqn:He.
        -- eapply NoProfile; [exact Hx|exact Hv|exact Hs| |].
           ++ right. congruence.
           ++ unfold loader. now rewrite Hx, Hv, Hs, He.
        -- destruct (data r) as [row|] eqn:Hd.
           ++ eapply Found; [exact Hx|exact Hv|exact Hs|exact Hd|exact He|].
              unfold loader. now rewrite Hx, Hv, Hs, He, Hd.
           ++ eapply NoProfile; [exact Hx|exact Hv|exact Hs| |].
              ** now left.
              ** unfold loader. now rewrite Hx, Hv, Hs, He, Hd.
      * eapply StoreThrew; [exact Hx|exact Hv|exact Hs|].
        unfold loader. now rewrite Hx, Hv, Hs.
    + pose proof (verifyToken_throw now env token e Hv) as ->.
      eapply BadToken; [exact Hx|exact Hv|].
      unfold loader. now rewrite Hx, Hv.
  - apply NoToken; trivial. unfold loader. now rewrite Hx.
Qed.

End LoaderPaths.

Section LoaderProperties.
Import Jsonwebtoken Loader.
Context {C : JwsCodec}.
Variable now : Z.
Variable env : Env.EnvVariables.
Variable store : Store.

(** X8.  The loader looks at the header only through the extracted token:
    whitespace around the token makes no difference to the response or to
    what is done. *)
Theorem loader_ignores_padding (l t r : string) :
  t <> EmptyString ->
  JsString.trim t = t ->
  JsString.all_chars JsString.is_whitespace l = true ->
  JsString.all_chars JsString.is_whitespace r = true ->
  loader now env store (Some ("Bearer " ++ l ++ t ++ r))
  = loader now env store (Some ("Bearer " ++ t)).
Proof.
  intros Hne Ht Hl Hr. unfold loader.
  rewrite (extract_padded l t r Hne Ht Hl Hr).
  pose proof (extract_padded EmptyString t EmptyString Hne Ht eq_refl eq_refl) as H0.
  cbn [append] in H0.
  assert (Ht0 : (t ++ "")%string = t).
  { clear. induction t as [|c t IH]; simpl; [reflexivity|now rewrite IH]. }
  rewrite Ht0 in H0. cbn [append]. now rewrite H0.
Qed.

(** X9.  A request without an Authorization header, with one that does
    not start with ["Bearer "], or with nothing but whitespace after the
    prefix is answered 401 ["Authorization token required"]; the token is
    not verified, the store is not read and nothing is logged. *)
Theorem loader_requires_token (authHeader : option string) :
  (authHeader = None
   \/ exists s, authHeader = Some s
                /\ (JsString.startsWith "Bearer " s = false
                    \/ JsString.trim (JsString.substring_from 7 s) = EmptyString)) ->
  loader now env store authHeader
  = ({| status := 401; body := ErrorBody "Authorization token required" None |}, []).
Proof.
  intros H. apply loader_without_token.
  destruct H as [->|[s [-> [Hp|Hr]]]]; [reflexivity| |];
    unfold extractTokenFromHeader.
  - now rewrite Hp.
  - destruct (JsString.startsWith "Bearer " s); [|reflexivity].
    cbn [negb]. cbv zeta. now rewrite Hr.
Qed.

(** X10.  The loader answers 200, 401 or 404 and nothing else; it answers
    200 exactly when the header yields a token, the token verifies, and
    the lookup for the payload's user id resolves with a row and without
    an error; and it is exactly then that the body is a user view. *)
Theorem loader_status_cases (authHeader : option string) :
  let resp := fst (loader now env store authHeader) in
  (status resp = 200%Z \/ status resp = 401%Z \/ status resp = 404%Z)
  /\ (status resp = 200%Z <->
      exists token payload r row,
        extractTokenFromHeader authHeader = Some token
        /\ Jwt.verifyToken now env token = Ok payload
        /\ store (profile_query (userId payload)) = Resolved r
        /\ data r = Some row /\ error r = None)
  /\ (status resp = 200%Z <-> exists u s, body resp = AuthBody u s).
Proof.
  cbv zeta.
  destruct (loader_paths now env store authHeader)
    as [Hx Hl|token Hx Hv Hl|token payload e Hx Hv Hs Hl
        |token payload r Hx Hv Hs Hr Hl|token payload r row Hx Hv Hs Hd He Hl];
    rewrite Hl; cbn [fst status body].
  - split; [auto|]. split; (split; [discriminate|]).
    + intros [token [payload [r [row [Hx' _]]]]]. congruence.
    + intros [u [s Hb]]. discriminate.
  - split; [auto|]. split; (split; [discriminate|]).
    + intros [token' [payload [r [row [Hx' [Hv' _]]]]]]. congruence.
    + intros [u [s Hb]]. discriminate.
  - split; [auto|]. split; (split; [discriminate|]).
    + intros [token' [payload' [r [row [Hx' [Hv' [Hs' _]]]]]]].
      assert (token' = token) by congruence; subst.
      assert (payload' = payload) by congruence; subst. congruence.
    + intros [u [s Hb]]. discriminate.
  - split; [auto|]. split; (split; [discriminate|]).
    + intros [token' [payload' [r' [row [Hx' [Hv' [Hs' [Hd' He']]]]]]]].
      assert (token' = token) by congruence; subst.
      assert (payload' = payload) by congruence; subst.
      assert (r' = r) by congruence; subst.
      destruct Hr; congruence.
    + intros [u [s Hb]]. discriminate.
  - split; [auto|]. split; (split; [|reflexivity]); intros _.
    + exists token, payload, r, row. auto.
    + eexists. eexists. reflexivity.
Qed.


(** X11.  Whatever the request, the loader writes nothing to the store and
    reads it at most once; a read happens only after the token verified,
    and it is the lookup of the verified, non-empty user id in the column
    [id] of [profiles]. *)
Theorem loader_store_discipline (authHeader : option string) :
  let fx := snd (loader now env store authHeader) in
  existsb is_store_write fx = false
  /\ length (filter is_select fx) <= 1
  /\ (forall q, In (StoreSelect q) fx ->
        exists token payload u,
          extractTokenFromHeader authHeader = Some token
          /\ Jwt.verifyToken now env token = Ok payload
          /\ userId payload = Some u /\ u <> EmptyString
          /\ q = {| table := "profiles";
                    columns := "id, username, full_name, avatar_url, roles";
                    eq_column := "id";
                    eq_value := Some u |}).
Proof.
  cbv zeta.
  destruct (loader_paths now env store authHeader)
    as [Hx Hl|token Hx Hv Hl|token payload e Hx Hv Hs Hl
        |token payload r Hx Hv Hs Hr Hl|token payload r row Hx Hv Hs Hd He Hl];
    rewrite Hl; cbn [snd existsb is_store_write orb filter is_select length];
    (split; [reflexivity|]); (split; [lia|]); intros q Hq; simpl in Hq.
  - destruct Hq.
  - destruct Hq as [Hq|[]]. discriminate Hq.
  - destruct Hq as [Hq|[Hq|[]]]; [|discriminate Hq].
    injection Hq as <-.
    destruct (verifyToken_userId now env token payload Hv) as [u [Hu Hne]].
    exists token, payload, u. rewrite Hu. repeat split; trivial.
  - destruct Hq as [Hq|[]]. injection Hq as <-.
    destruct (verifyToken_userId now env token payload Hv) as [u [Hu Hne]].
    exists token, payload, u. rewrite Hu. repeat split; trivial.
  - destruct Hq as [Hq|[]]. injection Hq as <-.
    destruct (verifyToken_userId now env token payload Hv) as [u [Hu Hne]].
    exists token, payload, u. rewrite Hu. repeat split; trivial.
Qed.

(** X12.  The loader logs through [console.error] exactly when it answers
    ["Authentication failed"], and then once; a missing token and a
    missing profile are not logged. *)
Theorem loader_logs_failures (authHeader : option string) :
  let out := loader now env store authHeader in
  (existsb is_log (snd out) = true <->
   exists d, body (fst out) = ErrorBody "Authentication failed" d)
  /\ length (filter is_log (snd out)) <= 1.
Proof.
  cbv zeta.
  destruct (loader_paths now env store authHeader)
    as [Hx Hl|token Hx Hv Hl|token payload e Hx Hv Hs Hl
        |token payload r Hx Hv Hs Hr Hl|token payload r row Hx Hv Hs Hd He Hl];
    rewrite Hl; cbn [fst snd body existsb is_log orb filter length];
    (split; [|lia]); split; try discriminate;
    try (intros [d Hd']; discriminate Hd');
    intros _; eexists; reflexivity.
Qed.

(** X13.  Every user view the loader returns carries the user id and the
    session id of the verified token, the id is not empty, and the address
    is the username followed by ["@example.com"]. *)
Theorem loader_user_view (authHeader : option string) (u : UserView)
    (s : option string) :
  body (fst (loader now env store authHeader)) = AuthBody u s ->
  exists token payload uidv,
    extractTokenFromHeader authHeader = Some token
    /\ Jwt.verifyToken now env token = Ok payload
    /\ userId payload = Some uidv /\ uidv <> EmptyString
    /\ user_id u = Some uidv
    /\ s = sessionId payload
    /\ user_email u = (user_username u ++ "@example.com")%string.
Proof.
  destruct (loader_paths now env store authHeader)
    as [Hx Hl|token Hx Hv Hl|token payload e Hx Hv Hs Hl
        |token payload r Hx Hv Hs Hr Hl|token payload r row Hx Hv Hs Hd He Hl];
    rewrite Hl; cbn [fst body]; try discriminate.
  intros [= <- <-].
  destruct (verifyToken_userId now env token payload Hv) as [uidv [Hu Hne]].
  exists token, payload, uidv. cbn [user_id user_email user_username].
  repeat split; trivial.
Qed.

End LoaderProperties.

Section LoaderPropertiesExamples.
Import Jsonwebtoken Loader.

Lemma loader_ignores_padding_witness :
  @loader Demo.codec Demo.now Demo.env Demo.store_with_alice
    (Some ("Bearer " ++ "  " ++ Demo.valid_token ++ " "))
  = @loader Demo.codec Demo.now Demo.env Demo.store_with_alice
      (Some ("Bearer " ++ Demo.valid_token)).
Proof.
  apply (@loader_ignores_padding Demo.codec Demo.now Demo.env Demo.store_with_alice
           "  " Demo.valid_token " "); try reflexivity.
  discriminate.
Defined.

Lemma loader_requires_token_witness :
  @loader Demo.codec Demo.now Demo.env Demo.store_with_alice (Some "Basic dXNlcg==")
  = ({| status := 401; body := ErrorBody "Authorization token required" None |}, []).
Proof.
  apply (@loader_requires_token Demo.codec Demo.now Demo.env Demo.store_with_alice
           (Some "Basic dXNlcg==")).
  right. exists "Basic dXNlcg==". split; [reflexivity|]. left. reflexivity.
Defined.

Lemma loader_status_cases_witness :
  status (fst (@loader Demo.codec Demo.now Demo.env Demo.store_with_alice
                 (Some ("Bearer " ++ Demo.valid_token)))) = 200%Z.
Proof.
  apply (proj1 (proj2 (@loader_status_cases Demo.codec Demo.now Demo.env
                         Demo.store_with_alice
                         (Some ("Bearer " ++ Demo.valid_token))))).
  exists Demo.valid_token, (Demo.session Demo.both (Some 2000%Z)),
    {| data := Some Demo.alice; error := None |}, Demo.alice.
  repeat split.
Defined.

Lemma loader_store_discipline_witness :
  exists u,
    profile_query (Some "u1")
    = {| table := "profiles";
         columns := "id, username, full_name, avatar_url, roles";
         eq_column := "id";
         eq_value := Some u |}.
Proof.
  destruct (proj2 (proj2 (@loader_store_discipline Demo.codec Demo.now Demo.env
                            Demo.empty_store
                            (Some ("Bearer " ++ Demo.valid_token))))
              (profile_query (Some "u1")))
    as [token [payload [u [_ [_ [_ [_ Hq]]]]]]].
  - left. reflexivity.
  - exists u. exact Hq.
Defined.

Lemma loader_logs_failures_witness :
  existsb is_log
    (snd (@loader Demo.codec Demo.now Demo.env Demo.broken_store
            (Some ("Bearer " ++ Demo.valid_token)))) = true.
Proof.
  apply (proj1 (@loader_logs_failures Demo.codec Demo.now Demo.env Demo.broken_store
                  (Some ("Bearer " ++ Demo.valid_token)))).
  eexists. reflexivity.
Defined.

Lemma loader_user_view_witness :
  exists token payload uidv,
    extractTokenFromHeader (Some ("Bearer " ++ Demo.valid_token)) = Some token
    /\ @Jwt.verifyToken Demo.codec Demo.now Demo.env token = Ok payload
    /\ userId payload = Some uidv /\ uidv <> EmptyString
    /\ Some "u1" = Some uidv
    /\ Some "s1" = sessionId payload
    /\ "alice@example.com" = ("alice" ++ "@example.com")%string.
Proof.
  apply (@loader_user_view Demo.codec Demo.now Demo.env Demo.store_with_alice
           (Some ("Bearer " ++ Demo.valid_token))
           {| user_id := Some "u1"; user_email := "alice@example.com";
              user_username := "alice"; user_name := None; user_avatar := None;
              user_roles := [] |}
           (Some "s1")).
  reflexivity.
Defined.

End LoaderPropertiesExamples.

(** ** Client auth context: every operation *)

Section AuthContextOperations.
Import AuthContext.

Lemma hasRole_profile (st st' : State) (role : string) :
  profile st' = profile st -> hasRole st' role = hasRole st role.
Proof. unfold hasRole. now intros ->. Qed.

Lemma hasRole_no_profile (st : State) (role : string) :
  profile st = None -> hasRole st role = false.
Proof. unfold hasRole. now intros ->. Qed.

(** X14.  However the credential check ends, [signIn] leaves [isLoading]
    false and the cached profile as it was.  The user changes only when
    the backend resolved without an error and with a user, and [signIn]
    returns normally only when the backend resolved with neither an error
    nor a user (in which case nothing but [isLoading] was touched). *)
Theorem signIn_every_outcome
    (backend : string -> string -> settled SignInResponse)
    (email password : string) (st : State) :
  let out := signIn backend email password st in
  isLoading (fst out) = false
  /\ profile (fst out) = profile st
  /\ (user (fst out) <> user st ->
      exists r u, backend email password = Resolved r
                  /\ signin_error r = None /\ data_user r = Some u
                  /\ user (fst out) = Some u)
  /\ (snd out = Returned ->
      exists r, backend email password = Resolved r
                /\ signin_error r = None /\ data_user r = None
                /\ user (fst out) = user st).
Proof.
  cbv zeta. unfold signIn.
  destruct (backend email password) as [r|e] eqn:Hb; cbn.
  - destruct (signin_error r) as [err|] eqn:He; cbn.
    + repeat split; try congruence; discriminate.
    + destruct (data_user r) as [u|] eqn:Hd; cbn.
      * repeat split; try discriminate.
        intros _. exists r, u. auto.
      * repeat split; try congruence.
        intros _. exists r. auto.
  - repeat split; try congruence; discriminate.
Qed.

(** X15.  After a sign-out that returned, [hasRole] is false for every
    role; after one that threw, [hasRole] answers as before. *)
Theorem hasRole_after_signOut (st : State) (role : string) :
  (forall r, hasRole (fst (signOut (Resolved r) st)) role = false)
  /\ (forall e, hasRole (fst (signOut (Rejected e) st)) role = hasRole st role).
Proof.
  split; intros; [apply hasRole_no_profile|apply hasRole_profile]; reflexivity.
Qed.

(** X16.  The auth-state listener.  Without a session it clears the user
    and the profile, so that [hasRole] is false for every role.  With a
    session it always makes the session's user the current one; the
    profile becomes that user's only when the lookup resolves with a row
    and without an error, and otherwise the cached profile - and every
    answer of [hasRole] - stays what it was before.  [isLoading] is never
    touched. *)
Theorem onAuthStateChange_spec (store : ProfileStore) (event : string)
    (st : State) :
  (user (fst (onAuthStateChange store event None st)) = None
   /\ profile (fst (onAuthStateChange store event None st)) = None
   /\ forall role, hasRole (fst (onAuthStateChange store event None st)) role = false)
  /\ (forall s,
        let out := onAuthStateChange store event (Some s) st in
        user (fst out) = Some (session_user s)
        /\ (forall r p, store (uid (session_user s)) = Resolved r ->
                        profile_error r = None -> profile_data r = Some p ->
                        profile (fst out) = Some p)
        /\ ((forall r, store (uid (session_user s)) = Resolved r ->
                       profile_error r <> None \/ profile_data r = None) ->
            profile (fst out) = profile st
            /\ forall role, hasRole (fst out) role = hasRole st role))
  /\ (forall session,
        isLoading (fst (onAuthStateChange store event session st)) = isLoading st).
Proof.
  split; [|split].
  - split; [reflexivity|]. split; [reflexivity|].
    intros role. now apply hasRole_no_profile.
  - intros s. cbv zeta. unfold onAuthStateChange, fetchProfile.
    destruct (store (uid (session_user s))) as [r|e] eqn:Hs.
    + destruct (profile_error r) as [err|] eqn:He;
        [|destruct (profile_data r) as [p|] eqn:Hd]; cbn.
      * split; [reflexivity|]. split; [intros r' p' [= <-]; congruence|].
        intros _. split; [reflexivity|]. intros role. now apply hasRole_profile.
      * split; [reflexivity|]. split; [intros r' p' [= <-]; congruence|].
        intros H. destruct (H r eq_refl); congruence.
      * split; [reflexivity|]. split; [intros r' p' [= <-]; congruence|].
        intros _. split; [reflexivity|]. intros role. now apply hasRole_profile.
    + cbn. split; [reflexivity|]. split; [intros r p; discriminate|].
      intros _. split; [reflexivity|]. intros role. now apply hasRole_profile.
  - intros [s|]; unfold onAuthStateChange, fetchProfile; [|reflexivity].
    destruct (store (uid (session_user s))) as [r|e]; [|reflexivity].
    destruct (profile_error r), (profile_data r); reflexivity.
Qed.

(** X17.  The initial load ends with [isLoading] false exactly when it
    returns normally, and it returns normally exactly when every awaited
    call resolved: when [getUser] rejects, or the profile lookup of the
    user it found rejects, [initializeAuth] throws and [isLoading] stays
    true. *)
Theorem initializeAuth_loading (getUser : settled (option User))
    (store : ProfileStore) (st : State) :
  let out := initializeAuth getUser store st in
  (isLoading (fst out) = false <-> snd out = Returned)
  /\ (snd out = Returned <->
      getUser = Resolved None
      \/ exists u r, getUser = Resolved (Some u) /\ store (uid u) = Resolved r)
  /\ (snd out <> Returned -> isLoading (fst out) = true).
Proof.
  cbv zeta. unfold initializeAuth, fetchProfile.
  destruct getUser as [[u|]|e]; cbn.
  - destruct (store (uid u)) as [r|e] eqn:Hs.
    + destruct (profile_error r), (profile_data r); cbn;
        (split; [tauto|]); (split; [|congruence]);
        (split; [intros _; right; exists u, r; auto|reflexivity]).
    + cbn. split; [split; discriminate|]. split; [|reflexivity].
      split; [discriminate|].
      intros [H|[u' [r [[= <-] Hr]]]]; congruence.
  - split; [tauto|]. split; [|congruence]. split; [auto|reflexivity].
  - split; [split; discriminate|]. split; [|reflexivity].
    split; [discriminate|]. intros [H|[u [r [H _]]]]; discriminate.
Qed.

(** X18.  [refreshSession] never changes the cached profile, the answers
    of [hasRole] or [isLoading].  When the backend reports no user it
    clears the user and returns; when it reports a user it stores that
    user and then throws, the profile lookup being out of reach. *)
Theorem refreshSession_spec (getUser : settled (option User)) (st : State) :
  let out := refreshSession getUser st in
  profile (fst out) = profile st
  /\ isLoading (fst out) = isLoading st
  /\ (forall role, hasRole (fst out) role = hasRole st role)
  /\ (getUser = Resolved None -> user (fst out) = None /\ snd out = Returned)
  /\ (forall u, getUser = Resolved (Some u) ->
                user (fst out) = Some u /\ snd out <> Returned).
Proof.
  cbv zeta. unfold refreshSession.
  destruct getUser as [[u|]|e]; cbn;
    (split; [reflexivity|]); (split; [reflexivity|]);
    (split; [intros role; now apply hasRole_profile|]);
    (split; [try discriminate; auto|]).
  - intros u' [= <-]. split; [reflexivity|discriminate].
  - intros u; discriminate.
  - intros u; discriminate.
Qed.

End AuthContextOperations.

Section AuthContextOperationsExamples.
Import AuthContext.

Lemma signIn_every_outcome_witness :
  exists r u,
    (fun _ _ => Resolved {| data_user := Some Demo.bob; signin_error := None |})
      "bob@example.org" "pw" = Resolved r
    /\ signin_error r = None /\ data_user r = Some u
    /\ Some Demo.bob = Some u.
Proof.
  apply (proj1 (proj2 (proj2
           (signIn_every_outcome
              (fun _ _ => Resolved {| data_user := Some Demo.bob; signin_error := None |})
              "bob@example.org" "pw" Demo.signed_in)))).
  discriminate.
Defined.

Lemma onAuthStateChange_spec_witness :
  user (fst (onAuthStateChange Demo.profiles "SIGNED_IN" (Some Demo.bob_session)
               Demo.signed_in)) = Some Demo.bob
  /\ profile (fst (onAuthStateChange Demo.profiles "SIGNED_IN" (Some Demo.bob_session)
                     Demo.signed_in)) = Some Demo.analyst
  /\ hasRole (fst (onAuthStateChange Demo.profiles "SIGNED_IN" (Some Demo.bob_session)
                     Demo.signed_in)) "analyst" = true.
Proof.
  destruct (proj1 (proj2 (onAuthStateChange_spec Demo.profiles "SIGNED_IN"
                            Demo.signed_in)) Demo.bob_session)
    as [Hu [_ Hstale]].
  destruct Hstale as [Hp Hr].
  - intros r [= <-]. left. discriminate.
  - split; [exact Hu|]. split; [exact Hp|]. rewrite Hr. reflexivity.
Defined.

Lemma initializeAuth_loading_witness :
  isLoading (fst (initializeAuth (Resolved (Some Demo.bob)) Demo.unreachable_profiles
                    initial)) = true
  /\ isLoading (fst (initializeAuth (Resolved (Some Demo.bob)) Demo.profiles
                       initial)) = false.
Proof.
  split.
  - apply (proj2 (proj2 (initializeAuth_loading (Resolved (Some Demo.bob))
                           Demo.unreachable_profiles initial))).
    discriminate.
  - apply (proj2 (proj1 (initializeAuth_loading (Resolved (Some Demo.bob))
                           Demo.profiles initial))).
    reflexivity.
Defined.

Lemma refreshSession_spec_witness :
  user (fst (refreshSession (Resolved None) Demo.signed_in)) = None
  /\ hasRole (fst (refreshSession (Resolved None) Demo.signed_in)) "analyst" = true.
Proof.
  destruct (refreshSession_spec (Resolved None) Demo.signed_in)
    as [_ [_ [Hr [Hn _]]]].
  split; [apply (proj1 (Hn eq_refl))|]. rewrite Hr. reflexivity.
Defined.

End AuthContextOperationsExamples.

(** ** Backend client *)

Section AuthLibFacts.
Import AuthLib.

(** X19.  [SecureStorage].  Inside a frame no method touches
    [localStorage]: reads give [null], [setItem] and [removeItem] leave the
    storage as it is, and each call warns once.  At top level an exception
    of [localStorage] is swallowed the same way: the read gives [null],
    the storage is left as it is, and the exception is warned about.  At
    top level and with [localStorage] not throwing, the methods are those
    of a key-value store: a value set under a key is read back, a removed
    key reads as absent, other keys are not disturbed, nothing is warned
    about.  In every case a method that warned changed nothing. *)
Theorem SecureStorage_spec (key value : string) (ls : LocalStorage) :
  (getItem true key ls = (None, [("Storage access blocked:", cross_origin)])
   /\ setItem true key value ls = (ls, [("Storage write blocked:", cross_origin)])
   /\ removeItem true key ls = (ls, [("Storage removal blocked:", cross_origin)]))
  /\ ((forall e, getItem_throws ls key = Some e ->
         getItem false key ls = (None, [("Storage access blocked:", e)]))
      /\ (forall e, setItem_throws ls key value = Some e ->
            setItem false key value ls = (ls, [("Storage write blocked:", e)]))
      /\ (forall e, removeItem_throws ls key = Some e ->
            removeItem false key ls = (ls, [("Storage removal blocked:", e)])))
  /\ (setItem_throws ls key value = None ->
      snd (setItem false key value ls) = []
      /\ (getItem_throws ls key = None ->
          getItem false key (fst (setItem false key value ls)) = (Some value, []))
      /\ (forall other, other <> key ->
            getItem false other (fst (setItem false key value ls))
            = getItem false other ls))
  /\ (removeItem_throws ls key = None ->
      snd (removeItem false key ls) = []
      /\ (getItem_throws ls key = None ->
          getItem false key (fst (removeItem false key ls)) = (None, []))
      /\ (forall other, other <> key ->
            getItem false other (fst (removeItem false key ls))
            = getItem false other ls))
  /\ (forall framed,
        (snd (setItem framed key value ls) <> [] ->
         fst (setItem framed key value ls) = ls)
        /\ (snd (removeItem framed key ls) <> [] ->
            fst (removeItem framed key ls) = ls)
        /\ (snd (getItem framed key ls) <> [] ->
            fst (getItem framed key ls) = None)).
Proof.
  unfold getItem, setItem, removeItem.
  split; [repeat split|]. split; [|split; [|split]].
  - split; [|split]; intros e He; now rewrite He.
  - intros Hs. rewrite Hs. cbn [fst snd with_entries getItem_throws entries].
    split; [reflexivity|]. split.
    + intros Hg. rewrite Hg. unfold storage_set. now rewrite String.eqb_refl.
    + intros other Hne. destruct (getItem_throws ls other); [reflexivity|].
      unfold storage_set. apply String.eqb_neq in Hne. now rewrite Hne.
  - intros Hr. rewrite Hr. cbn [fst snd with_entries getItem_throws entries].
    split; [reflexivity|]. split.
    + intros Hg. rewrite Hg. unfold storage_remove. now rewrite String.eqb_refl.
    + intros other Hne. destruct (getItem_throws ls other); [reflexivity|].
      unfold storage_remove. apply String.eqb_neq in Hne. now rewrite Hne.
  - intros [|]; cbn [fst snd]; [repeat split|].
    split; [|split].
    + destruct (setItem_throws ls key value); cbn [fst snd]; [reflexivity|congruence].
    + destruct (removeItem_throws ls key); cbn [fst snd]; [reflexivity|congruence].
    + destruct (getItem_throws ls key); cbn [fst snd]; [reflexivity|congruence].
Qed.

(** What [if (error) throw error; return data] makes of an awaited call. *)
Lemma unwrap_cases {D : Type} (r : settled (AuthResponse D)) :
  (forall d, unwrap r = Returns d <->
             exists resp, r = Resolved resp
                          /\ resp_error resp = None /\ resp_data resp = d)
  /\ (forall resp err, r = Resolved resp -> resp_error resp = Some err ->
        unwrap r = Throws (AuthContext.ThrownAuthError err))
  /\ (forall e, r = Rejected e -> unwrap r = Throws (AuthContext.ThrownValue e)).
Proof.
  split; [|split].
  - intros d. destruct r as [resp|e]; unfold unwrap.
    + destruct (resp_error resp) as [err|] eqn:He.
      * split; [discriminate|]. intros [resp' [[= <-] [He' _]]]. congruence.
      * split.
        -- intros [= <-]. exists resp. auto.
        -- intros [resp' [[= <-] [_ <-]]]. reflexivity.
    + split; [discriminate|]. intros [resp [H _]]. discriminate.
  - intros resp err -> He. unfold unwrap. now rewrite He.
  - intros e ->. reflexivity.
Qed.

(** X20.  [signUp], [signIn] and [signOut] of the backend client.  In a
    frame each throws ["Auth operations not allowed in frames"] and the
    backend is not called.  At top level each calls the backend once, and
    then: it returns (the [data] of the response, for [signUp] and
    [signIn]) exactly when the call resolved without an error; it throws
    the backend's own error object when the response carries one; and it
    throws the rejection when the call rejected. *)
Theorem auth_operations_spec {D : Type}
    (up : string -> string -> string -> settled (AuthResponse D))
    (inn : string -> string -> settled (AuthResponse D))
    (out : settled (AuthResponse D))
    (email password username : string) :
  (signUp true up email password username = (Throws not_in_frames, [])
   /\ signIn true inn email password = (Throws not_in_frames, [])
   /\ signOut true out = (Throws not_in_frames, []))
  /\ (snd (signUp false up email password username)
      = [CallSignUp email password username]
      /\ snd (signIn false inn email password) = [CallSignIn email password]
      /\ snd (signOut false out) = [CallSignOut])
  /\ ((forall d,
         fst (signUp false up email password username) = Returns d <->
         exists resp, up email password username = Resolved resp
                      /\ resp_error resp = None /\ resp_data resp = d)
      /\ (forall d,
            fst (signIn false inn email password) = Returns d <->
            exists resp, inn email password = Resolved resp
                         /\ resp_error resp = None /\ resp_data resp = d)
      /\ (fst (signOut false out) = Returns tt <->
          exists resp, out = Resolved resp /\ resp_error resp = None))
  /\ ((forall resp err,
         up email password username = Resolved resp -> resp_error resp = Some err ->
         fst (signUp false up email password username)
         = Throws (AuthContext.ThrownAuthError err))
      /\ (forall resp err,
            inn email password = Resolved resp -> resp_error resp = Some err ->
            fst (signIn false inn email password)
            = Throws (AuthContext.ThrownAuthError err))
      /\ (forall resp err,
            out = Resolved resp -> resp_error resp = Some err ->
            fst (signOut false out) = Throws (AuthContext.ThrownAuthError err)))
  /\ ((forall e,
         up email password username = Rejected e ->
         fst (signUp false up email password username)
         = Throws (AuthContext.ThrownValue e))
      /\ (forall e,
            inn email password = Rejected e ->
            fst (signIn false inn email password)
            = Throws (AuthContext.ThrownValue e))
      /\ (forall e,
            out = Rejected e ->
            fst (signOut false out) = Throws (AuthContext.ThrownValue e))).
Proof.
  destruct (unwrap_cases (up email password username)) as [Ur [Ue Uj]].
  destruct (unwrap_cases (inn email password)) as [Ir [Ie Ij]].
  destruct (unwrap_cases out) as [Or [Oe Oj]].
  unfold signUp, signIn, signOut; cbn [fst snd].
  split; [repeat split|]. split; [repeat split|].
  split; [|split].
  - split; [exact Ur|]. split; [exact Ir|]. split.
    + destruct (unwrap out) as [d|t] eqn:Hu; [|discriminate].
      intros _. destruct (proj1 (Or d) eq_refl) as [resp [H1 [H2 _]]].
      now exists resp.
    + intros [resp [H1 H2]].
      rewrite (proj2 (Or (resp_data resp))); [reflexivity|].
      now exists resp.
  - split; [exact Ue|]. split; [exact Ie|].
    intros resp err Hr He. now rewrite (Oe resp err Hr He).
  - split; [exact Uj|]. split; [exact Ij|].
    intros e He. now rewrite (Oj e He).
Qed.

(** X21.  [initializeWebContainerAuth] never hands a failure on as an
    exception.  In a frame the SDK is not called and the result has status
    ["error"]; at top level the SDK is called once, for the scope
    ["policy-simulator"] and without credentials, its result is passed on
    as it is, and a rejection becomes a result with status ["error"] that
    carries the rejection; every ["error"] made here is also logged. *)
Theorem initializeWebContainerAuth_spec (origin clientId : string)
    (init : settled WebContainerAuthResult) :
  (existsb is_backend_call
     (snd (initializeWebContainerAuth true origin init clientId)) = false
   /\ wc_status (fst (initializeWebContainerAuth true origin init clientId))
      = "error")
  /\ (filter is_backend_call
        (snd (initializeWebContainerAuth false origin init clientId))
      = [CallWebcontainerInit clientId "policy-simulator" origin true])
  /\ (forall r, init = Resolved r ->
        initializeWebContainerAuth false origin init clientId
        = (r, [CallWebcontainerInit clientId "policy-simulator" origin true]))
  /\ (forall e, init = Rejected e ->
        fst (initializeWebContainerAuth false origin init clientId)
        = {| wc_status := "error"; wc_error := Some e |}
        /\ In (ConsoleError "WebContainer auth failed:" e)
              (snd (initializeWebContainerAuth false origin init clientId))).
Proof.
  unfold initializeWebContainerAuth. split; [split; reflexivity|].
  split; [destruct init; reflexivity|]. split.
  - intros r ->. reflexivity.
  - intros e ->. split; [reflexivity|]. simpl. auto.
Qed.

End AuthLibFacts.

Section AuthLibExamples.
Import AuthLib.

Lemma SecureStorage_spec_witness :
  getItem false "theme" (fst (setItem false "theme" "dark" Demo.one_entry))
  = (Some "dark", [])
  /\ setItem false "big" "payload" Demo.one_entry
     = (Demo.one_entry,
        [("Storage write blocked:", JsError "The quota has been exceeded.")]).
Proof.
  split.
  - apply (proj1 (proj2 (proj1 (proj2 (proj2
             (SecureStorage_spec "theme" "dark" Demo.one_entry))) eq_refl))).
    reflexivity.
  - apply (proj1 (proj2 (proj1 (proj2
             (SecureStorage_spec "big" "payload" Demo.one_entry))))).
    reflexivity.
Defined.

Lemma auth_operations_spec_witness :
  fst (signOut false
         (Resolved {| resp_data := tt; resp_error := Some Demo.bad_credentials |}))
  = Throws (AuthContext.ThrownAuthError Demo.bad_credentials)
  /\ fst (signUp false
            (fun _ _ _ => Rejected (JsError "Failed to fetch"))
            "alice@example.org" "pw" "alice")
     = (Throws (AuthContext.ThrownValue (JsError "Failed to fetch")) : outcome unit).
Proof.
  pose proof (auth_operations_spec
                (fun _ _ _ => Rejected (JsError "Failed to fetch"))
                (fun _ _ => Rejected (JsError "Failed to fetch"))
                (Resolved {| resp_data := tt;
                             resp_error := Some Demo.bad_credentials |})
                "alice@example.org" "pw" "alice")
    as [_ [_ [_ [[_ [_ He]] [Hj _]]]]].
  split.
  - apply (He {| resp_data := tt; resp_error := Some Demo.bad_credentials |}
              Demo.bad_credentials); reflexivity.
  - apply (Hj (JsError "Failed to fetch")). reflexivity.
Defined.

Lemma initializeWebContainerAuth_spec_witness :
  fst (initializeWebContainerAuth false "https://app.example" 
         (Rejected (JsError "popup blocked")) "policy-simulator-client")
  = {| wc_status := "error"; wc_error := Some (JsError "popup blocked") |}.
Proof.
  apply (proj2 (proj2 (proj2
           (initializeWebContainerAuth_spec "https://app.example"
              "policy-simulator-client" (Rejected (JsError "popup blocked")))))
           (JsError "popup blocked") eq_refl).
Defined.

End AuthLibExamples.

(** ** Projection chart *)

Section PolicyChartFacts.
Import PolicyChart.
Variable num : Type.
Variable zero : num.
Variable scaled : num -> nat -> num.






End PolicyChartFacts.

Section PolicyChartExamples.
Import PolicyChart.


End PolicyChartExamples.

(** ** Auth loader and token codec, end to end *)

Section LoaderEndToEnd.
Import Jsonwebtoken Loader.
Context {C : JwsCodec}.
Variable now : Z.
Variable env : Env.EnvVariables.
Variable store : Store.

(** X23.  No 200 without a valid bearer token: when the loader answers 200
    the request carried a header starting with ["Bearer "] whose trimmed
    rest decodes to a token that names [HS256], carries the MAC of its
    first two segments under the configured secret, is not expired, is
    issued by ["policy-sonar"] and carries a non-empty [userId]. *)
Theorem loader_ok_requires_valid_token (authHeader : option string) :
  status (fst (loader now env store authHeader)) = 200%Z ->
  exists s t,
    authHeader = Some s
    /\ JsString.startsWith "Bearer " s = true
    /\ decode_compact (JsString.trim (JsString.substring_from 7 s)) = Some t
    /\ alg t = "HS256"
    /\ signature t = jwa_sign "HS256" (Env.JWT_SECRET env) (signing_input t)
    /\ (forall e, exp (payload t) = Some e -> (now < e)%Z)
    /\ iss (payload t) = Some "policy-sonar"
    /\ (exists u, userId (payload t) = Some u /\ u <> EmptyString).
Proof.
  destruct (loader_paths now env store authHeader)
    as [Hx Hl|token Hx Hv Hl|token payload e Hx Hv Hs Hl
        |token payload r Hx Hv Hs Hr Hl|token payload r row Hx Hv Hs Hd He Hl];
    rewrite Hl; cbn [fst status]; try discriminate.
  intros _.
  apply extract_some_iff in Hx. destruct Hx as [s [-> [Hp [-> _]]]].
  apply verifyToken_ok in Hv. destruct Hv as [t [Hdec [Ha _]]].
  apply token_accepted_iff in Ha.
  destruct Ha as [_ [A2 [A3 [_ [A5 [_ [A7 A8]]]]]]].
  exists s, t. repeat split; assumption.
Qed.

End LoaderEndToEnd.

Section LoaderEndToEndExamples.
Import Jsonwebtoken Loader.

Lemma loader_ok_requires_valid_token_witness :
  exists s t,
    Some ("Bearer " ++ Demo.valid_token)%string = Some s
    /\ JsString.startsWith "Bearer " s = true
    /\ @decode_compact Demo.codec (JsString.trim (JsString.substring_from 7 s)) = Some t
    /\ alg t = "HS256"
    /\ signature t
       = @jwa_sign Demo.codec "HS256" (Env.JWT_SECRET Demo.env) (signing_input t)
    /\ (forall e, exp (payload t) = Some e -> (Demo.now < e)%Z)
    /\ iss (payload t) = Some "policy-sonar"
    /\ (exists u, userId (payload t) = Some u /\ u <> EmptyString).
Proof.
  apply (@loader_ok_requires_valid_token Demo.codec Demo.now Demo.env
           Demo.store_with_alice (Some ("Bearer " ++ Demo.valid_token)%string)).
  reflexivity.
Defined.

End LoaderEndToEndExamples.
